(** * generate_sweden_json.py: the shelter download and conversion pipeline

    A shallow embedding of [fetch_all_shelters], [convert_to_app_format] and
    the script body of [src/generate_sweden_json.py], with the properties of
    its specification stated over it.

    The script handles whatever JSON the feature service answers, so the
    embedding works on JSON values as Python holds them after
    [response.json()], and writes out which Python operation raises on which
    kind of value. *)

From Stdlib Require Import ZArith String Ascii Lia.
From Stdlib Require Import Floats.SpecFloat.
From stdpp Require Import base list.

Local Set Warnings "-register-all".
Local Open Scope Z_scope.

(* ===================================================================== *)
(** * Python values                                                       *)
(* ===================================================================== *)

(** A Python [str] is a sequence of Unicode code points. *)
Definition pystr := list N.

(** The code points of an ASCII literal. *)
Definition u (s : string) : pystr :=
  map N_of_ascii (list_ascii_of_string s).

Fixpoint str_eqb (s t : pystr) : bool :=
  match s, t with
  | [], [] => true
  | a :: s', b :: t' => N.eqb a b && str_eqb s' t'
  | _, _ => false
  end.

(** The values [json.loads] produces.  Integers are unbounded; a float is a
    binary64 datum given by sign, mantissa and exponent.  A [dict] keeps its
    keys in insertion order, which is the order [list.extend] walks them in,
    so it is an association list; a Python dict holds each key once, and
    [dict_get] reads the first binding. *)
Inductive json :=
| JNull
| JBool (b : bool)
| JInt (z : Z)
| JFloat (f : spec_float)
| JStr (s : pystr)
| JList (l : list json)
| JDict (d : list (pystr * json)).

Fixpoint dict_get (k : pystr) (d : list (pystr * json)) : option json :=
  match d with
  | [] => None
  | (k', v) :: d' => if str_eqb k k' then Some v else dict_get k d'
  end.

Definition dict_mem (k : pystr) (d : list (pystr * json)) : bool :=
  match dict_get k d with Some _ => true | None => false end.

(** The exceptions the modelled operations raise. *)
Inductive exn :=
| AttributeError
| TypeError
| KeyError
| ValueError
| OverflowError
| OSError.

(** A computation that returns or raises. *)
Inductive result (A : Type) :=
| Ok (a : A)
| Raise (e : exn).
Arguments Ok {A} a.
Arguments Raise {A} e.

Definition bind {A B} (m : result A) (k : A -> result B) : result B :=
  match m with
  | Ok a => k a
  | Raise e => Raise e
  end.

Notation "x <- m ;; k" := (bind m (fun x => k))
  (at level 100, m at next level, right associativity).

(** ** Operations on values *)

(** [sub in s] on two strings: [sub] occurs in [s] as a substring. *)
Fixpoint str_prefixb (p s : pystr) : bool :=
  match p, s with
  | [], _ => true
  | a :: p', b :: s' => N.eqb a b && str_prefixb p' s'
  | _ :: _, [] => false
  end.

Fixpoint str_infixb (p s : pystr) : bool :=
  str_prefixb p s ||
  match s with
  | [] => false
  | _ :: s' => str_infixb p s'
  end.

(** [v == k] for a string [k]: only an equal string compares equal. *)
Definition eq_str (k : pystr) (v : json) : bool :=
  match v with
  | JStr s => str_eqb k s
  | _ => false
  end.

(** [k in o] for a string [k]: key test on a dict, substring test on a
    string, element test on a list; the other values are not containers. *)
Definition py_in (k : pystr) (o : json) : result bool :=
  match o with
  | JDict d => Ok (dict_mem k d)
  | JStr s => Ok (str_infixb k s)
  | JList l => Ok (existsb (eq_str k) l)
  | JNull | JBool _ | JInt _ | JFloat _ => Raise TypeError
  end.

(** [o.get(k, default)]: only a dict has the method. *)
Definition py_get (o : json) (k : pystr) (default : json) : result json :=
  match o with
  | JDict d => Ok (match dict_get k d with Some v => v | None => default end)
  | _ => Raise AttributeError
  end.

(** [o[k]] for a string [k]. *)
Definition py_getitem (o : json) (k : pystr) : result json :=
  match o with
  | JDict d => match dict_get k d with Some v => Ok v | None => Raise KeyError end
  | _ => Raise TypeError
  end.

(** Truth value of a value in a condition. *)
Definition py_truthy (v : json) : bool :=
  match v with
  | JNull => false
  | JBool b => b
  | JInt z => negb (Z.eqb z 0)
  | JFloat (S754_zero _) => false
  | JFloat _ => true
  | JStr s => match s with [] => false | _ => true end
  | JList l => match l with [] => false | _ => true end
  | JDict d => match d with [] => false | _ => true end
  end.

(** [v is None]. *)
Definition is_none (v : json) : bool :=
  match v with JNull => true | _ => false end.

(** [len(v)] and the elements [list.extend(v)] walks through. *)
Definition py_len (v : json) : result nat :=
  match v with
  | JStr s => Ok (length s)
  | JList l => Ok (length l)
  | JDict d => Ok (length d)
  | JNull | JBool _ | JInt _ | JFloat _ => Raise TypeError
  end.

Definition py_iter (v : json) : result (list json) :=
  match v with
  | JStr s => Ok (map (fun c => JStr [c]) s)
  | JList l => Ok l
  | JDict d => Ok (map (fun kv => JStr (fst kv)) d)
  | JNull | JBool _ | JInt _ | JFloat _ => Raise TypeError
  end.

(** [int(x)] on a float: truncation toward zero of [(-1)^s * m * 2^e];
    [nan] and the infinities raise. *)
Definition int_of_float (f : spec_float) : result Z :=
  match f with
  | S754_zero _ => Ok 0
  | S754_infinity _ => Raise OverflowError
  | S754_nan => Raise ValueError
  | S754_finite s m e =>
      let mag := if Z.leb 0 e then Z.pos m * 2 ^ e else Z.pos m / 2 ^ (- e) in
      Ok (if s then - mag else mag)
  end.

(** [str.isspace] on one code point, the characters [str.strip()] removes. *)
Definition isspace (c : N) : bool :=
  ((9 <=? c) && (c <=? 13) || (28 <=? c) && (c <=? 32)
   || (c =? 133) || (c =? 160) || (c =? 5760)
   || (8192 <=? c) && (c <=? 8202)
   || (c =? 8232) || (c =? 8233) || (c =? 8239) || (c =? 8287)
   || (c =? 12288))%N.

Fixpoint lstrip (s : pystr) : pystr :=
  match s with
  | [] => []
  | c :: s' => if isspace c then lstrip s' else s
  end.

Definition rstrip (s : pystr) : pystr := rev (lstrip (rev s)).

Definition strip (s : pystr) : pystr := rstrip (lstrip s).

(** What the script takes from the interpreter and the clock.  [str(v)] on a
    value that is not a string and [int(s)] on a string follow Python's
    printer and number parser, and [datetime.now()] reads the clock; the
    script's logic does not depend on what they answer, so they are taken as
    given.  [strftime_now idx] is the date string read while record [idx] is
    converted. *)
Class Python := {
  str_other : json -> pystr;
  int_of_str : pystr -> result Z;
  strftime_now : nat -> pystr
}.

Section Builtins.
Context `{Python}.

(** [str(v)]. *)
Definition py_str (v : json) : pystr :=
  match v with
  | JStr s => s
  | _ => str_other v
  end.

(** [int(v)]. *)
Definition py_int (v : json) : result Z :=
  match v with
  | JBool b => Ok (if b then 1 else 0)
  | JInt z => Ok z
  | JFloat f => int_of_float f
  | JStr s => int_of_str s
  | JNull | JList _ | JDict _ => Raise TypeError
  end.
End Builtins.

(* ===================================================================== *)
(** * The transformer: [convert_to_app_format]                            *)
(* ===================================================================== *)

(** The lines the script prints, by kind. *)
Inductive event :=
| Downloading
| Fetching (offset : nat)
| ApiError (e : json)
| Got (n : nat)
| FetchError
| Downloaded (n : nat)
| Converting
| Skipping (idx : nat)
| Converted (n : nat)
| FoundSwedish (n : nat).

(** The default address, the string "Ok" U+00E4 "nd adress". *)
Definition placeholder : pystr := u "Ok" ++ [228%N] ++ u "nd adress".

(** The characters counted by the diagnostic counter, as the one-character
    strings of the source: U+00E5, U+00E4, U+00F6, U+00C5, U+00C4, U+00D6. *)
Definition swedish_chars : list pystr :=
  [[229%N]; [228%N]; [246%N]; [197%N]; [196%N]; [214%N]].

(** The feature dict built for one retained record. *)
Definition make_feature (lon lat : json) (idx : nat) (plasser : Z)
    (address : json) (date : pystr) : json :=
  JDict [
    (u "type", JStr (u "Feature"));
    (u "geometry", JDict [
        (u "type", JStr (u "Point"));
        (u "coordinates", JList [lon; lat])]);
    (u "properties", JDict [
        (u "romnr", JInt (Z.of_nat idx));
        (u "plasser", JInt plasser);
        (u "adresse", address);
        (u "datauttaksdato", JStr date)])].

(** The locals of the loop that outlive one iteration, and what was printed. *)
Record conv_state := ConvState {
  features : list json;
  swedish_char_count : nat;
  printed : list event
}.

Section Transformer.
Context `{Python}.

(** One pass through the body of the [for] loop, for the record at input
    position [idx]. *)
Definition convert_step (idx : nat) (arcgis_feature : json) (st : conv_state)
    : result conv_state :=
  attrs <- py_get arcgis_feature (u "attributes") (JDict []) ;;
  geom <- py_get arcgis_feature (u "geometry") (JDict []) ;;
  has_x <- py_in (u "x") geom ;;
  has_xy <- (if has_x : bool then py_in (u "y") geom else Ok false) ;;
  if has_xy : bool then
    lon <- py_getitem geom (u "x") ;;
    lat <- py_getitem geom (u "y") ;;
    address <- py_get attrs (u "Gatuadress") (JStr placeholder) ;;
    let '(address, count) :=
      if py_truthy address then
        let address := strip (py_str address) in
        (JStr address,
         if existsb (fun char => str_infixb char address) swedish_chars
         then S (swedish_char_count st) else swedish_char_count st)
      else (address, swedish_char_count st) in
    capacity <- py_get attrs (u "AntalPlatser") (JInt 0) ;;
    let capacity := if is_none capacity then JInt 0 else capacity in
    shelter_nr <- py_get attrs (u "Skyddsrumsnr") (JInt (Z.of_nat idx)) ;;
    plasser <- (if py_truthy capacity then py_int capacity else Ok 0) ;;
    let feature :=
      make_feature lon lat idx plasser address (strftime_now idx) in
    Ok (ConvState (features st ++ [feature]) count (printed st))
  else
    Ok (ConvState (features st) (swedish_char_count st)
                  (printed st ++ [Skipping idx])).

(** [for idx, arcgis_feature in enumerate(arcgis_features)], from position
    [idx] on. *)
Fixpoint convert_loop (idx : nat) (arcgis_features : list json)
    (st : conv_state) : result conv_state :=
  match arcgis_features with
  | [] => Ok st
  | arcgis_feature :: rest =>
      st' <- convert_step idx arcgis_feature st ;;
      convert_loop (S idx) rest st'
  end.

(** The document wrapped around the features. *)
Definition make_geojson (features : list json) : json :=
  JDict [
    (u "type", JStr (u "FeatureCollection"));
    (u "name", JStr (u "Skyddsrum Sverige"));
    (u "features", JList features)].

(** The function returns the document; the second component is what it
    printed on the way. *)
Definition convert_to_app_format (arcgis_features : list json)
    : result (json * list event) :=
  st <- convert_loop 0 arcgis_features (ConvState [] 0 [Converting]) ;;
  Ok (make_geojson (features st),
      printed st ++ [Converted (length (features st));
                     FoundSwedish (swedish_char_count st)]).
End Transformer.

(* ===================================================================== *)
(** * The fetcher: [fetch_all_shelters]                                   *)
(* ===================================================================== *)

(** What [requests.get], [raise_for_status] and [response.json()] give for
    one query: an exception, or the decoded body. *)
Inductive response :=
| Failed
| Body (data : json).

(** What the script takes from its surroundings: the feature service, asked
    with [resultOffset = offset], and the file system, which either raises
    while [sweden_shelters.json] is written and read back or yields the text
    read back. *)
Class Host := {
  server : nat -> response;
  store : json -> result pystr
}.

Definition page_size : nat := 2000.

(** The locals of [fetch_all_shelters] and what was printed. *)
Record fetch_state := FetchState {
  all_features : list json;
  offset : nat;
  fprinted : list event
}.

(** The statements of the [try] block after [data] is bound.  The answer
    is the new state and whether the loop goes on ([false] is [break]).
    Every operation that can raise comes before [all_features.extend], so
    the [except] clause always sees the list as it was. *)
Definition fetch_page (data : json) (st : fetch_state)
    : result (fetch_state * bool) :=
  has_error <- py_in (u "error") data ;;
  if has_error : bool then
    e <- py_getitem data (u "error") ;;
    Ok (FetchState (all_features st) (offset st) (fprinted st ++ [ApiError e]),
        false)
  else
    features <- py_get data (u "features") (JList []) ;;
    if negb (py_truthy features) then Ok (st, false)
    else
      items <- py_iter features ;;
      n <- py_len features ;;
      let st' := FetchState (all_features st ++ items) (offset st)
                            (fprinted st ++ [Got n]) in
      if (n <? page_size)%nat then Ok (st', false)
      else Ok (FetchState (all_features st') (offset st' + page_size)
                          (fprinted st'), true).

Section Fetcher.
Context `{Host}.

(** One pass through the body of [while True]. *)
Definition fetch_step (st : fetch_state) : fetch_state * bool :=
  let st := FetchState (all_features st) (offset st)
                       (fprinted st ++ [Fetching (offset st)]) in
  let stop := (FetchState (all_features st) (offset st)
                          (fprinted st ++ [FetchError]), false) in
  match server (offset st) with
  | Failed => stop
  | Body data =>
      match fetch_page data st with
      | Ok r => r
      | Raise _ => stop
      end
  end.

(** [while True], cut off after [fuel] passes: [None] when the loop has not
    left by then. *)
Fixpoint fetch_loop (fuel : nat) (st : fetch_state) : option fetch_state :=
  match fuel with
  | O => None
  | S fuel' =>
      match fetch_step st with
      | (st', true) => fetch_loop fuel' st'
      | (st', false) => Some st'
      end
  end.

Definition fetch_all_shelters (fuel : nat) : option (list json * list event) :=
  match fetch_loop fuel (FetchState [] 0 [Downloading]) with
  | Some st =>
      Some (all_features st,
            fprinted st ++ [Downloaded (length (all_features st))])
  | None => None
  end.
End Fetcher.

(* ===================================================================== *)
(** * The script body                                                     *)
(* ===================================================================== *)

Section Script.
Context `{Python} `{Host}.

(** The exit status of the process once [arcgis_features] is fetched:
    [exit(1)] on an empty list; an exception nobody catches ends the
    interpreter with status 1; reaching the end of the script gives 0.
    After the file is read back the script only searches the text and
    prints. *)
Definition run_after_fetch (arcgis_features : list json) : Z :=
  if negb (py_truthy (JList arcgis_features)) then 1
  else
    match convert_to_app_format arcgis_features with
    | Raise _ => 1
    | Ok (geojson, _) =>
        match store geojson with
        | Raise _ => 1
        | Ok _ => 0
        end
    end.

Definition main (fuel : nat) : option Z :=
  match fetch_all_shelters fuel with
  | Some (arcgis_features, _) => Some (run_after_fetch arcgis_features)
  | None => None
  end.
End Script.

(* ===================================================================== *)
(** * Reading records and documents                                       *)
(* ===================================================================== *)

(** [v[k]] when [v] is a dict holding [k]. *)
Definition member (k : pystr) (v : json) : option json :=
  match v with
  | JDict d => dict_get k d
  | _ => None
  end.

(** The attribute [k] of a raw record, and the member [k] of its geometry;
    [None] when the record does not carry it. *)
Definition attribute (k : pystr) (r : json) : option json :=
  match member (u "attributes") r with
  | Some attrs => member k attrs
  | None => None
  end.

Definition geometry_member (k : pystr) (r : json) : option json :=
  match member (u "geometry") r with
  | Some geom => member k geom
  | None => None
  end.

(** The record's geometry holds both [x] and [y]. *)
Definition has_xy (r : json) : bool :=
  match geometry_member (u "x") r, geometry_member (u "y") r with
  | Some _, Some _ => true
  | _, _ => false
  end.

(** The records with both coordinates, each with its position in the input,
    in input order. *)
Definition retained_from (idx : nat) (arcgis_features : list json)
    : list (nat * json) :=
  filter (fun ir => has_xy ir.2 = true)
         (imap (fun i r => ((idx + i)%nat, r)) arcgis_features).

Definition retained (arcgis_features : list json) : list (nat * json) :=
  retained_from 0 arcgis_features.

(** The fields of an output feature and the features of a document. *)
Definition property (k : pystr) (feature : json) : option json :=
  match member (u "properties") feature with
  | Some props => member k props
  | None => None
  end.

Definition romnr := property (u "romnr").
Definition plasser := property (u "plasser").
Definition adresse := property (u "adresse").

Definition coordinates (feature : json) : option json :=
  match member (u "geometry") feature with
  | Some geom => member (u "coordinates") geom
  | None => None
  end.

Definition doc_features (geojson : json) : list json :=
  match member (u "features") geojson with
  | Some (JList l) => l
  | _ => []
  end.

(** The address string holds one of the counted characters. *)
Definition has_swedish_char (address : pystr) : bool :=
  existsb (fun c => existsb (fun char => str_eqb char [c]) swedish_chars) address.

(** The six code points of [swedish_chars]. *)
Definition counted_characters : list N := [229; 228; 246; 197; 196; 214]%N.

Definition counted (feature : json) : bool :=
  match adresse feature with
  | Some (JStr s) => has_swedish_char s
  | _ => false
  end.

(** An environment for running the model on concrete records: none of the
    records used below carries a non-empty string capacity or an address
    that is not a string, so the two conversions are never reached. *)
Definition plain : Python :=
  {| str_other := fun _ => [];
     int_of_str := fun _ => Raise ValueError;
     strftime_now := fun _ => u "2026-01-01" |}.

(** A raw record with the given attributes and geometry. *)
Definition raw (attrs geom : list (pystr * json)) : json :=
  JDict [(u "attributes", JDict attrs); (u "geometry", JDict geom)].

(** A feature service that holds [records] and answers the first query with
    all of them and later queries with an empty page, next to a file system
    that works. *)
Definition serving (records : list json) : Host :=
  {| server := fun offset =>
       Body (JDict [(u "features",
                     JList (if (offset =? 0)%nat then records else []))]);
     store := fun _ => Ok [] |}.

(** Three records: an address starting with U+00C5 and a null capacity, a
    record whose geometry lacks [y], and an address to trim with capacity
    40. *)
Definition example_records : list json :=
  [raw [(u "Gatuadress", JStr (197%N :: u "by 1")); (u "AntalPlatser", JNull)]
       [(u "x", JInt 18); (u "y", JInt 59)];
   raw [] [(u "x", JInt 18)];
   raw [(u "Gatuadress", JStr (u "  Storgatan 5 "));
        (u "AntalPlatser", JInt 40)]
       [(u "x", JInt 18); (u "y", JInt 59)]].

(** The point 18.5, 59.25 as floats. *)
Definition at_18_59 : list (pystr * json) :=
  [(u "x", JFloat (S754_finite false 37 (-1)));
   (u "y", JFloat (S754_finite false 237 (-2)))].

(** ** Statements of the specification that the code does not meet

    Each is written the way the specification words it, for one input. *)
Section AsSpecified.
Context `{Python}.

(** "index = position in the output sequence (0-based)". *)
Definition romnr_is_output_position (arcgis_features : list json) : Prop :=
  forall geojson out j f,
    convert_to_app_format arcgis_features = Ok (geojson, out) ->
    doc_features geojson !! j = Some f ->
    romnr f = Some (JInt (Z.of_nat j)).

(** A record's geometry has at least one of [x] and [y]. *)
Definition has_x_or_y (r : json) : bool :=
  match geometry_member (u "x") r, geometry_member (u "y") r with
  | None, None => false
  | _, _ => true
  end.

(** "records lacking both x and y geometry fields are skipped", and only
    those. *)
Definition skips_only_without_x_and_y (arcgis_features : list json) : Prop :=
  forall geojson out,
    convert_to_app_format arcgis_features = Ok (geojson, out) ->
    length (doc_features geojson) =
    length (filter (fun r => has_x_or_y r = true) arcgis_features).

(** "Invariant: capacity >= 0". *)
Definition capacity_is_non_negative (arcgis_features : list json) : Prop :=
  forall geojson out j f,
    convert_to_app_format arcgis_features = Ok (geojson, out) ->
    doc_features geojson !! j = Some f ->
    exists z, plasser f = Some (JInt z) /\ 0 <= z.


(** "any of a fixed set of eight diacritic characters": some eight distinct
    characters decide the test of the loop body. *)
Definition counts_eight_characters : Prop :=
  exists chars : list N,
    NoDup chars /\ length chars = 8%nat /\
    forall address : pystr,
      existsb (fun char => str_infixb char address) swedish_chars = true <->
      exists c, c ∈ address /\ c ∈ chars.
End AsSpecified.

(** "exit code 1 if zero records were ever fetched; otherwise falls through
    to 0", for the runs whose fetch loop ends within [fuel] passes. *)
Definition exit_1_iff_nothing_fetched `{Python} `{Host} (fuel : nat) : Prop :=
  forall fetched out,
    fetch_all_shelters fuel = Some (fetched, out) ->
    (main fuel = Some 1 <-> fetched = []) /\
    (fetched <> [] -> main fuel = Some 0).

(** A decoded body that is a page of fewer than [page_size] features: a
    dict without an [error] member whose [features] member is the list
    [page]. *)
Definition short_page (data : json) (page : list json) : Prop :=
  member (u "error") data = None /\
  member (u "features") data = Some (JList page) /\
  (length page < page_size)%nat.

(** [t] is [s] without its leading and trailing whitespace. *)
Definition is_trim_of (t s : pystr) : Prop :=
  exists pre post,
    s = pre ++ t ++ post /\
    Forall (fun c => isspace c = true) pre /\
    Forall (fun c => isspace c = true) post /\
    (forall c, head t = Some c -> isspace c = false) /\
    (forall c, last t = Some c -> isspace c = false).

(** The source capacity is missing, null, a boolean, an integer or finite
    float that is not negative, or an empty string, list or dict. *)
Definition not_negative (c : option json) : bool :=
  match c with
  | None | Some JNull | Some (JBool _) => true
  | Some (JInt z) => 0 <=? z
  | Some (JFloat (S754_finite s _ _)) => negb s
  | Some (JFloat (S754_zero _)) => true
  | Some (JFloat _) => false
  | Some v => negb (py_truthy v)
  end.

(** [z] is the integer part of the float [(-1)^s * m * 2^e]: its magnitude
    is the largest integer not above [m * 2^e], and it has the sign of the
    float. *)
Definition is_truncation (s : bool) (m : positive) (e z : Z) : Prop :=
  exists k,
    0 <= k /\ z = (if s then - k else k) /\
    (0 <= e -> k = Z.pos m * 2 ^ e) /\
    (e < 0 -> k * 2 ^ (- e) <= Z.pos m < (k + 1) * 2 ^ (- e)).

(** [z] is the integer a capacity attribute stands for: 0 when it is missing,
    null or empty, the number itself cut to an integer when it is a number,
    what [int] reads in it when it is a non-empty string.  No integer stands
    for [nan], an infinity, or a non-empty list or dict. *)
Definition capacity_as_integer `{Python} (c : option json) (z : Z) : Prop :=
  match c with
  | None | Some JNull => z = 0
  | Some (JBool b) => z = if b then 1 else 0
  | Some (JInt n) => z = n
  | Some (JFloat (S754_zero _)) => z = 0
  | Some (JFloat (S754_finite s m e)) => is_truncation s m e z
  | Some (JFloat _) => False
  | Some (JStr []) | Some (JList []) | Some (JDict []) => z = 0
  | Some (JStr s) => int_of_str s = Ok z
  | Some (JList _) | Some (JDict _) => False
  end.

(** "capacity: null or missing -> 0; otherwise coerced to an integer". *)
Definition zero_or_coerced `{Python} (arcgis_features : list json) : Prop :=
  forall geojson out j i r f,
    convert_to_app_format arcgis_features = Ok (geojson, out) ->
    retained arcgis_features !! j = Some (i, r) ->
    doc_features geojson !! j = Some f ->
    match attribute (u "AntalPlatser") r with
    | None | Some JNull => plasser f = Some (JInt 0)
    | Some v => exists z, py_int v = Ok z /\ plasser f = Some (JInt z)
    end.

(** Two records whose capacity is empty, a string and a list, and one whose
    capacity is the float 40.75. *)
Definition empty_capacity_records : list json :=
  [raw [(u "AntalPlatser", JStr [])] [(u "x", JInt 18); (u "y", JInt 59)];
   raw [(u "AntalPlatser", JList [])] [(u "x", JInt 18); (u "y", JInt 59)]].

Definition float_capacity_records : list json :=
  [raw [(u "AntalPlatser", JFloat (S754_finite false 163 (-2)))]
       [(u "x", JInt 18); (u "y", JInt 59)]].

(** ** What the loop body computes for a retained record

    The address and capacity expressions of the loop body as functions of
    the attribute read from the record, and the feature a retained record
    gives rise to; [convert_step_spec] below shows the loop body agrees. *)
Section Views.
Context `{Python}.

Definition address_out (a : option json) : json :=
  let address := match a with Some v => v | None => JStr placeholder end in
  if py_truthy address then JStr (strip (py_str address)) else address.

Definition capacity_out (c : option json) : result Z :=
  let capacity := match c with Some v => v | None => JInt 0 end in
  let capacity := if is_none capacity then JInt 0 else capacity in
  if py_truthy capacity then py_int capacity else Ok 0.

Definition emits (ir : nat * json) (f : json) : Prop :=
  exists lon lat n,
    geometry_member (u "x") ir.2 = Some lon /\
    geometry_member (u "y") ir.2 = Some lat /\
    capacity_out (attribute (u "AntalPlatser") ir.2) = Ok n /\
    f = make_feature lon lat ir.1 n
          (address_out (attribute (u "Gatuadress") ir.2)) (strftime_now ir.1).

(** A record on which the loop body cannot raise: a dict whose
    [attributes] and [geometry], when present, are dicts, and whose capacity
    [int] accepts. *)
Definition well_formed (r : json) : Prop :=
  exists d,
    r = JDict d /\
    (forall v, dict_get (u "attributes") d = Some v -> exists a, v = JDict a) /\
    (forall v, dict_get (u "geometry") d = Some v -> exists g, v = JDict g) /\
    exists n, capacity_out (attribute (u "AntalPlatser") r) = Ok n.
End Views.

(* ===================================================================== *)
(** * Vocabulary for whole runs                                           *)
(* ===================================================================== *)

(** The offsets asked for, in order, as the printed lines show them. *)
Definition requests (out : list event) : list nat :=
  omap (fun e => match e with Fetching o => Some o | _ => None end) out.

(** A decoded body that is a page of at least [page_size] features: a dict
    without an [error] member whose [features] member is the list [page]. *)
Definition full_page (data : json) (page : list json) : Prop :=
  member (u "error") data = None /\
  member (u "features") data = Some (JList page) /\
  (page_size <= length page)%nat.

(** The state of the fetch loop after it has consumed the full pages
    [pages] one after the other. *)
Fixpoint after_pages (st : fetch_state) (pages : list (list json))
    : fetch_state :=
  match pages with
  | [] => st
  | page :: rest =>
      after_pages
        (FetchState (all_features st ++ page) (offset st + page_size)
           (fprinted st ++ [Fetching (offset st); Got (length page)]))
        rest
  end.

(** The service answers the queries at offsets [from], [from + page_size],
    ... with the full pages [pages], in this order. *)
Definition serves_full_pages `{Host} (from : nat) (pages : list (list json))
    : Prop :=
  forall i page,
    pages !! i = Some page ->
    exists data,
      server (from + i * page_size)%nat = Body data /\ full_page data page.

(** The input positions of the records that lack a coordinate, in input
    order. *)
Definition skipped_from (idx : nat) (arcgis_features : list json) : list nat :=
  map fst (filter (fun ir => has_xy ir.2 = false)
                  (imap (fun i r => ((idx + i)%nat, r)) arcgis_features)).

Definition skipped (arcgis_features : list json) : list nat :=
  skipped_from 0 arcgis_features.

(** Two records that are JSON objects with the same [geometry] and whose
    [attributes] are objects with the same [Gatuadress] and the same
    [AntalPlatser]; everything else in them may differ. *)
Definition same_read (r r' : json) : Prop :=
  exists d d' a a',
    r = JDict d /\ r' = JDict d' /\
    dict_get (u "geometry") d = dict_get (u "geometry") d' /\
    dict_get (u "attributes") d = Some (JDict a) /\
    dict_get (u "attributes") d' = Some (JDict a') /\
    dict_get (u "Gatuadress") a = dict_get (u "Gatuadress") a' /\
    dict_get (u "AntalPlatser") a = dict_get (u "AntalPlatser") a'.

(** A record that is a JSON object whose [geometry] is absent or an object
    and lacks [x] or [y]. *)
Definition without_coordinates (r : json) : Prop :=
  exists d,
    r = JDict d /\ has_xy r = false /\
    (dict_get (u "geometry") d = None \/
     exists g, dict_get (u "geometry") d = Some (JDict g)).

(** A value that is no container: [in] raises on it. *)
Definition is_scalar (v : json) : bool :=
  match v with
  | JNull | JBool _ | JInt _ | JFloat _ => true
  | _ => false
  end.

(** [int] is applied to the capacity [v] and raises [e] on it: [ValueError]
    on [nan], [OverflowError] on an infinity, [TypeError] on a non-empty
    list or dict, and on a non-empty string whatever the number parser
    raises. *)
Definition rejected_by_int `{Python} (v : json) (e : exn) : Prop :=
  match v with
  | JFloat S754_nan => e = ValueError
  | JFloat (S754_infinity _) => e = OverflowError
  | JList (_ :: _) | JDict (_ :: _) => e = TypeError
  | JStr (c :: s) => int_of_str (c :: s) = Raise e
  | _ => False
  end.

(** The ways a record makes the loop body raise, and the exception. *)
Inductive malformed `{Python} : json -> exn -> Prop :=
| not_an_object r :
    (forall d, r <> JDict d) ->
    malformed r AttributeError
| scalar_geometry r g :
    member (u "geometry") r = Some g ->
    is_scalar g = true ->
    malformed r TypeError
| attributes_not_an_object r a :
    has_xy r = true ->
    member (u "attributes") r = Some a ->
    (forall d, a <> JDict d) ->
    malformed r AttributeError
| capacity_rejected r v e :
    has_xy r = true ->
    attribute (u "AntalPlatser") r = Some v ->
    rejected_by_int v e ->
    malformed r e.

(** A page of exactly [page_size] records, and a feature service that
    answers the first query with it and every later query with [second]. *)
Definition full_example : list json :=
  replicate page_size (raw [] [(u "x", JInt 18); (u "y", JInt 59)]).

Definition answering (second : response) : Host :=
  {| server := fun offset =>
       if (offset =? 0)%nat
       then Body (JDict [(u "features", JList full_example)])
       else second;
     store := fun _ => Ok [] |}.

(** A feature service that cannot be reached. *)
Definition unreachable : Host :=
  {| server := fun _ => Failed; store := fun _ => Ok [] |}.

(** Bodies, states and records for running the theorems on. *)
Definition short_body : json := JDict [(u "features", JList [JNull])].

Definition error_member : json := JDict [(u "code", JInt 400)].

Definition error_body : list (pystr * json) :=
  [(u "error", error_member); (u "features", JList [JNull])].

Definition fresh : fetch_state := FetchState [] 0 [].

Definition after_full_example : fetch_state :=
  FetchState full_example page_size [Fetching 0; Got (length full_example)].

Definition plain_records : list json :=
  [raw [(u "Gatuadress", JStr (u "Storgatan 5")); (u "AntalPlatser", JInt 40)]
       [(u "x", JInt 18); (u "y", JInt 59)]].

Definition tagged_records : list json :=
  [raw [(u "Skyddsrumsnr", JStr (u "123456-7"));
        (u "Gatuadress", JStr (u "Storgatan 5"));
        (u "Kommunnamn", JStr (u "Lund"));
        (u "AntalPlatser", JInt 40)]
       [(u "x", JInt 18); (u "y", JInt 59)]].

(** A record that converts, by being skipped, although its attributes are
    a number; and four records the loop body raises on. *)
Definition skipped_record : json :=
  JDict [(u "attributes", JInt 7); (u "geometry", JDict [(u "x", JInt 18)])].

Definition record_with_number_geometry : json :=
  JDict [(u "geometry", JInt 0)].

Definition record_with_number_attributes : json :=
  JDict [(u "attributes", JInt 7);
         (u "geometry", JDict [(u "x", JInt 18); (u "y", JInt 59)])].

Definition record_with_nan_capacity : json :=
  raw [(u "AntalPlatser", JFloat S754_nan)] [(u "x", JInt 18); (u "y", JInt 59)].

Definition records_without_coordinates : list json :=
  [JDict [(u "attributes", JNull)];
   JDict [(u "attributes", JInt 7); (u "geometry", JDict [(u "x", JInt 18)])]].

Definition record_without_address : json :=
  raw [(u "AntalPlatser", JInt 12)] [(u "x", JInt 18); (u "y", JInt 59)].

(** A feature service that answers every query with the same full page. *)
Definition endless : Host :=
  {| server := fun _ => Body (JDict [(u "features", JList full_example)]);
     store := fun _ => Ok [] |}.

(* ===================================================================== *)
(** * Properties of the transformer                                       *)
(* ===================================================================== *)

Section TransformerProofs.
Context `{Python}.

Lemma bind_ok {A B} (m : result A) (k : A -> result B) b :
  (x <- m ;; k x) = Ok b -> exists a, m = Ok a /\ k a = Ok b.
Proof. destruct m; simpl; [eauto | discriminate]. Qed.


Lemma str_infixb_single k (a : pystr) :
  str_infixb [k] a = existsb (N.eqb k) a.
Proof.
  induction a as [|c a IH]; simpl; [reflexivity|].
  rewrite IH. destruct (N.eqb k c); reflexivity.
Qed.

Lemma existsb_orb {A} (f g : A -> bool) (l : list A) :
  existsb (fun x => f x || g x) l = existsb f l || existsb g l.
Proof.
  induction l as [|x l IH]; simpl; [reflexivity|].
  rewrite IH. destruct (f x), (g x), (existsb f l); reflexivity.
Qed.

Lemma existsb_pointwise {A} (f g : A -> bool) (l : list A) :
  (forall x, f x = g x) -> existsb f l = existsb g l.
Proof.
  intros E. induction l as [|x l IH]; simpl; [reflexivity|].
  rewrite E, IH. reflexivity.
Qed.

Lemma any_single_chars (ks : list N) (a : pystr) :
  existsb (fun char => str_infixb char a) (map (fun k => [k]) ks) =
  existsb (fun c => existsb (fun char => str_eqb char [c]) (map (fun k => [k]) ks)) a.
Proof.
  induction ks as [|k ks IH]; cbn [map existsb str_eqb].
  - induction a; simpl; auto.
  - rewrite IH, str_infixb_single, existsb_orb. f_equal.
    apply existsb_pointwise; intros c. symmetry; apply andb_true_r.
Qed.

Lemma any_swedish_char (a : pystr) :
  existsb (fun char => str_infixb char a) swedish_chars = has_swedish_char a.
Proof.
  exact (any_single_chars [229; 228; 246; 197; 196; 214]%N a).
Qed.

Lemma property_make_feature lon lat idx n a date :
  romnr (make_feature lon lat idx n a date) = Some (JInt (Z.of_nat idx)) /\
  plasser (make_feature lon lat idx n a date) = Some (JInt n) /\
  adresse (make_feature lon lat idx n a date) = Some a /\
  coordinates (make_feature lon lat idx n a date) = Some (JList [lon; lat]).
Proof. repeat split; reflexivity. Qed.

Lemma counted_falsy a :
  py_truthy a = false -> match a with JStr s => has_swedish_char s | _ => false end = false.
Proof. destruct a as [| | | |[|c s]| |]; simpl; congruence. Qed.

Lemma convert_step_spec idx r st st' :
  convert_step idx r st = Ok st' ->
  if has_xy r then
    exists lon lat n,
      geometry_member (u "x") r = Some lon /\
      geometry_member (u "y") r = Some lat /\
      capacity_out (attribute (u "AntalPlatser") r) = Ok n /\
      let f := make_feature lon lat idx n
                 (address_out (attribute (u "Gatuadress") r)) (strftime_now idx) in
      features st' = features st ++ [f] /\
      swedish_char_count st' =
        (swedish_char_count st + if counted f then 1 else 0)%nat
  else features st' = features st /\
       swedish_char_count st' = swedish_char_count st.
Proof.
  unfold convert_step. intros Hs.
  apply bind_ok in Hs as (attrs & Ha & Hs).
  apply bind_ok in Hs as (geom & Hg & Hs).
  apply bind_ok in Hs as (hx & Hx & Hs).
  apply bind_ok in Hs as (hxy & Hxy & Hs).
  destruct r; try discriminate Ha.
  unfold py_get in Ha, Hg. injection Ha as <-. injection Hg as <-.
  unfold has_xy, geometry_member, attribute, member.
  destruct hxy.
  - (* both tests held, so both subscripts succeeded: the geometry is a
       dict with the two keys *)
    apply bind_ok in Hs as (lon & Hlon & Hs).
    apply bind_ok in Hs as (lat & Hlat & Hs).
    apply bind_ok in Hs as (address & Hadr & Hs).
    destruct (dict_get (u "geometry") d) as [geom|]; [|discriminate Hlon].
    destruct geom; try discriminate Hlon.
    unfold py_getitem in Hlon, Hlat.
    destruct (dict_get (u "x") d0) as [x|]; [|discriminate Hlon].
    destruct (dict_get (u "y") d0) as [y|]; [|discriminate Hlat].
    injection Hlon as <-. injection Hlat as <-.
    assert (exists a, match dict_get (u "attributes") d with
                      | Some v => v | None => JDict [] end = JDict a /\
                      forall k, match dict_get (u "attributes") d with
                                | Some (JDict d1) => dict_get k d1
                                | _ => None end = dict_get k a) as (a & Ea & Ek).
    { destruct (dict_get (u "attributes") d) as [[]|]; try discriminate Hadr; eauto. }
    rewrite !Ek. rewrite Ea in Hadr, Hs. clear Ea Ek.
    unfold py_get in Hadr. injection Hadr as <-.
    unfold counted. 
    unfold address_out, capacity_out.
    set (address := match dict_get (u "Gatuadress") a with
                    | Some v => v | None => JStr placeholder end) in *.
    rewrite any_swedish_char in Hs.
    destruct (py_truthy address) eqn:Etruthy;
      apply bind_ok in Hs as (capacity & Hcap & Hs);
      apply bind_ok in Hs as (shelter_nr & _ & Hs);
      apply bind_ok in Hs as (n & Hn & Hs);
      injection Hcap as <-; injection Hs as Est; subst st';
      exists x, y, n;
      cbv beta iota zeta delta [features swedish_char_count];
      (split; [reflexivity|]); (split; [reflexivity|]);
      (split; [exact Hn|]); (split; [reflexivity|]).
    + destruct (property_make_feature x y idx n (JStr (strip (py_str address)))
                  (strftime_now idx)) as (_ & _ & -> & _).
      destruct (has_swedish_char (strip (py_str address))); lia.
    + destruct (property_make_feature x y idx n address (strftime_now idx))
        as (_ & _ & -> & _).
      rewrite (counted_falsy address Etruthy). lia.
  - (* one of the tests failed: the record is skipped *)
    injection Hs as <-. cbv beta iota delta [features swedish_char_count].
    destruct (dict_get (u "geometry") d) as [geom|]; [|auto].
    destruct geom; auto.
    unfold py_in, dict_mem in Hx, Hxy.
    destruct (dict_get (u "x") d0); [|auto].
    injection Hx as <-.
    destruct (dict_get (u "y") d0); [discriminate Hxy|auto].
Qed.

Lemma retained_from_cons idx r rest :
  retained_from idx (r :: rest) =
  if has_xy r then (idx, r) :: retained_from (S idx) rest
  else retained_from (S idx) rest.
Proof.
  unfold retained_from. rewrite imap_cons, Nat.add_0_r.
  rewrite (imap_ext _ (fun i r => ((S idx + i)%nat, r)) rest)
    by (intros; simpl; f_equal; lia).
  rewrite filter_cons. simpl.
  destruct (has_xy r); reflexivity.
Qed.

Lemma convert_loop_spec fs : forall idx st st',
  convert_loop idx fs st = Ok st' ->
  exists new,
    features st' = features st ++ new /\
    Forall2 emits (retained_from idx fs) new /\
    swedish_char_count st' =
      (swedish_char_count st + length (filter (fun f => counted f = true) new))%nat.
Proof.
  induction fs as [|r rest IH]; intros idx st st' Hloop.
  - injection Hloop as <-. exists []. rewrite app_nil_r.
    repeat split; [constructor | simpl; lia].
  - simpl in Hloop. apply bind_ok in Hloop as (st1 & Hstep & Hloop).
    apply IH in Hloop as (new & Hf & Hall & Hc).
    apply convert_step_spec in Hstep.
    rewrite retained_from_cons.
    destruct (has_xy r).
    + destruct Hstep as (lon & lat & n & Hx & Hy & Hn & Hf1 & Hc1).
      cbv zeta in Hf1, Hc1.
      eexists (_ :: new). rewrite Hf, Hf1, <- app_assoc. split; [reflexivity|].
      split.
      * constructor; [|exact Hall]. exists lon, lat, n. auto.
      * rewrite filter_cons, Hc, Hc1.
        destruct (counted _); simpl; lia.
    + destruct Hstep as (Hf1 & Hc1). exists new.
      rewrite Hf, Hf1, Hc, Hc1. auto.
Qed.

Lemma convert_to_app_format_spec fs geojson out :
  convert_to_app_format fs = Ok (geojson, out) ->
  Forall2 emits (retained fs) (doc_features geojson) /\
  exists skipped,
    out = skipped ++
          [Converted (length (doc_features geojson));
           FoundSwedish (length (filter (fun f => counted f = true)
                                        (doc_features geojson)))].
Proof.
  unfold convert_to_app_format. intros Hc.
  apply bind_ok in Hc as (st & Hloop & Hc). injection Hc as <- <-.
  apply convert_loop_spec in Hloop as (new & Hf & Hall & Hcount).
  simpl in Hf, Hcount. change (doc_features _) with (features st).
  rewrite Hf, Hcount. eauto.
Qed.

(** ** Positions of the retained records *)

(** The [j]-th retained record sits at input position [idx + k], where [k]
    is [j] plus the number of records skipped before it. *)
Lemma retained_from_lookup fs : forall idx j i r,
  retained_from idx fs !! j = Some (i, r) ->
  exists k,
    i = (idx + k)%nat /\ fs !! k = Some r /\ has_xy r = true /\
    k = (j + length (filter (fun r => has_xy r = false) (take k fs)))%nat.
Proof.
  induction fs as [|r0 rest IH]; intros idx j i r Hj.
  - discriminate Hj.
  - rewrite retained_from_cons in Hj.
    destruct (has_xy r0) eqn:E0; [destruct j as [|j]|].
    + injection Hj as <- <-. exists 0%nat. simpl. auto with lia.
    + apply IH in Hj as (k & -> & Hk & Hr & Hlen).
      exists (S k). cbn [take lookup list_lookup]. rewrite filter_cons.
      destruct (decide (has_xy r0 = false)); [congruence|].
      repeat split; auto; lia.
    + apply IH in Hj as (k & -> & Hk & Hr & Hlen).
      exists (S k). cbn [take lookup list_lookup]. rewrite filter_cons.
      destruct (decide (has_xy r0 = false)); [|congruence].
      repeat split; auto; simpl; lia.
Qed.

Lemma retained_from_complete fs : forall idx k r,
  fs !! k = Some r -> has_xy r = true ->
  exists j, retained_from idx fs !! j = Some ((idx + k)%nat, r).
Proof.
  induction fs as [|r0 rest IH]; intros idx k r Hk Hr; [discriminate Hk|].
  rewrite retained_from_cons. destruct k as [|k].
  - injection Hk as ->. rewrite Hr, Nat.add_0_r. exists 0%nat. reflexivity.
  - destruct (IH (S idx) k r Hk Hr) as (j & Hj).
    replace (idx + S k)%nat with (S idx + k)%nat by lia.
    destruct (has_xy r0); [exists (S j) | exists j]; exact Hj.
Qed.

Lemma retained_from_increasing fs : forall idx j1 j2 i1 i2 r1 r2,
  (j1 < j2)%nat ->
  retained_from idx fs !! j1 = Some (i1, r1) ->
  retained_from idx fs !! j2 = Some (i2, r2) ->
  (i1 < i2)%nat.
Proof.
  induction fs as [|r0 rest IH]; intros idx j1 j2 i1 i2 r1 r2 Hlt H1 H2.
  - discriminate H1.
  - rewrite retained_from_cons in H1, H2.
    destruct (has_xy r0); [|eauto].
    destruct j2 as [|j2]; [lia|]. destruct j1 as [|j1].
    + injection H1 as <- <-.
      apply retained_from_lookup in H2 as (k & -> & _). lia.
    + apply (IH (S idx) j1 j2 i1 i2 r1 r2); [lia | exact H1 | exact H2].
Qed.

Lemma retained_from_length fs : forall idx,
  length (retained_from idx fs) = length (filter (fun r => has_xy r = true) fs).
Proof.
  induction fs as [|r0 rest IH]; intros idx; [reflexivity|].
  rewrite retained_from_cons, filter_cons.
  destruct (decide (has_xy r0 = true)) as [->|E].
  - simpl. f_equal. apply IH.
  - destruct (has_xy r0); [congruence | apply IH].
Qed.

(** ** The conversion returns on well-formed records *)

Lemma convert_step_total idx r st :
  well_formed r -> exists st', convert_step idx r st = Ok st'.
Proof.
  intros (d & -> & Hattrs & Hgeom & n & Hn).
  unfold capacity_out, attribute, member in Hn.
  unfold convert_step, py_get. cbn [bind].
  assert (exists a, match dict_get (u "attributes") d with
                    | Some v => v | None => JDict [] end = JDict a /\
                    (if py_truthy
                          (if is_none match dict_get (u "AntalPlatser") a with
                                      | Some v => v | None => JInt 0 end
                           then JInt 0
                           else match dict_get (u "AntalPlatser") a with
                                | Some v => v | None => JInt 0 end)
                     then py_int
                          (if is_none match dict_get (u "AntalPlatser") a with
                                      | Some v => v | None => JInt 0 end
                           then JInt 0
                           else match dict_get (u "AntalPlatser") a with
                                | Some v => v | None => JInt 0 end)
                     else Ok 0) = Ok n) as (a & -> & Hcap).
  { destruct (dict_get (u "attributes") d) as [v|].
    - destruct (Hattrs v eq_refl) as (a & ->). eauto.
    - exists []. split; [reflexivity | exact Hn]. }
  assert (exists g, match dict_get (u "geometry") d with
                    | Some v => v | None => JDict [] end = JDict g)
    as (g & ->).
  { destruct (dict_get (u "geometry") d) as [v|]; [|eauto].
    destruct (Hgeom v eq_refl) as (g & ->). eauto. }
  unfold py_in, py_getitem, dict_mem. cbn [bind].
  destruct (dict_get (u "x") g) as [x|]; cbn [bind]; [|eauto].
  destruct (dict_get (u "y") g) as [y|]; cbn [bind]; [|eauto].
  rewrite Hcap.
  destruct (py_truthy match dict_get (u "Gatuadress") a with
                      | Some v => v | None => JStr placeholder end);
    cbn [bind]; eauto.
Qed.

Lemma convert_loop_total fs : forall idx st,
  Forall well_formed fs -> exists st', convert_loop idx fs st = Ok st'.
Proof.
  induction fs as [|r rest IH]; intros idx st Hwf; simpl; [eauto|].
  apply Forall_cons in Hwf as [Hr Hrest].
  destruct (convert_step_total idx r st Hr) as (st1 & ->). simpl.
  apply IH, Hrest.
Qed.

Lemma convert_to_app_format_total fs :
  Forall well_formed fs ->
  exists geojson out, convert_to_app_format fs = Ok (geojson, out).
Proof.
  intros Hwf. unfold convert_to_app_format.
  destruct (convert_loop_total fs 0 (ConvState [] 0 [Converting]) Hwf)
    as (st & ->). simpl. eauto.
Qed.

(** ** Output features and retained records, position by position *)

Lemma feature_of_retained fs geojson out j f :
  convert_to_app_format fs = Ok (geojson, out) ->
  doc_features geojson !! j = Some f ->
  exists i r, retained fs !! j = Some (i, r) /\ emits (i, r) f.
Proof.
  intros Hc Hj. apply convert_to_app_format_spec in Hc as (Hall & _).
  destruct (Forall2_lookup_r _ _ _ _ _ Hall Hj) as ([i r] & Hr & He). eauto.
Qed.

Lemma retained_has_feature fs geojson out j i r :
  convert_to_app_format fs = Ok (geojson, out) ->
  retained fs !! j = Some (i, r) ->
  exists f, doc_features geojson !! j = Some f /\ emits (i, r) f.
Proof.
  intros Hc Hj. apply convert_to_app_format_spec in Hc as (Hall & _).
  exact (Forall2_lookup_l _ _ _ _ _ Hall Hj).
Qed.

Lemma romnr_emitted i r f : emits (i, r) f -> romnr f = Some (JInt (Z.of_nat i)).
Proof. intros (lon & lat & n & _ & _ & _ & ->). reflexivity. Qed.

(** C10. The [romnr] values of the output features are strictly increasing:
    each feature carries the position its record had in the input, so the
    values never repeat and never decrease. *)
Theorem romnr_strictly_increasing fs geojson out j1 j2 f1 f2 :
  convert_to_app_format fs = Ok (geojson, out) ->
  (j1 < j2)%nat ->
  doc_features geojson !! j1 = Some f1 ->
  doc_features geojson !! j2 = Some f2 ->
  exists i1 i2 r1 r2,
    romnr f1 = Some (JInt (Z.of_nat i1)) /\
    romnr f2 = Some (JInt (Z.of_nat i2)) /\
    fs !! i1 = Some r1 /\ retained fs !! j1 = Some (i1, r1) /\
    fs !! i2 = Some r2 /\ retained fs !! j2 = Some (i2, r2) /\
    (i1 < i2)%nat.
Proof.
  intros Hc Hlt H1 H2.
  destruct (feature_of_retained _ _ _ _ _ Hc H1) as (i1 & r1 & Hr1 & He1).
  destruct (feature_of_retained _ _ _ _ _ Hc H2) as (i2 & r2 & Hr2 & He2).
  exists i1, i2, r1, r2.
  pose proof (retained_from_increasing _ _ _ _ _ _ _ _ Hlt Hr1 Hr2) as Hi.
  destruct (retained_from_lookup _ _ _ _ _ Hr1) as (k1 & -> & Hk1 & _).
  destruct (retained_from_lookup _ _ _ _ _ Hr2) as (k2 & -> & Hk2 & _).
  repeat split; eauto using romnr_emitted.
Qed.

(** C1, as the code has it.  The [romnr] of an output feature is the position
    of its record in the input: the position of the feature in the output
    plus the number of records skipped before it.  Skipped records are
    counted, so the values run 0, 1, 2, ... only up to the first skip. *)
Theorem romnr_is_input_position fs geojson out j f :
  convert_to_app_format fs = Ok (geojson, out) ->
  doc_features geojson !! j = Some f ->
  exists i r,
    romnr f = Some (JInt (Z.of_nat i)) /\
    fs !! i = Some r /\ has_xy r = true /\
    i = (j + length (filter (fun r => has_xy r = false) (take i fs)))%nat.
Proof.
  intros Hc Hj.
  destruct (feature_of_retained _ _ _ _ _ Hc Hj) as (i & r & Hr & He).
  destruct (retained_from_lookup _ _ _ _ _ Hr) as (k & -> & Hk & Hxy & Hlen).
  exists k, r. repeat split; auto. exact (romnr_emitted _ _ _ He).
Qed.

(** C2, as the code has it.  The output holds exactly one feature per record
    whose geometry has both [x] and [y], in input order; a record that lacks
    either one is skipped. *)
Theorem one_feature_per_record_with_x_and_y fs geojson out :
  convert_to_app_format fs = Ok (geojson, out) ->
  length (doc_features geojson) =
    length (filter (fun r => has_xy r = true) fs) /\
  forall i r, fs !! i = Some r ->
    (has_xy r = true <->
     exists j f, doc_features geojson !! j = Some f /\
                 retained fs !! j = Some (i, r) /\
                 romnr f = Some (JInt (Z.of_nat i))).
Proof.
  intros Hc. split.
  - pose proof (convert_to_app_format_spec _ _ _ Hc) as (Hall & _).
    rewrite <- (Forall2_length _ _ _ Hall). apply retained_from_length.
  - intros i r Hi. split.
    + intros Hxy.
      destruct (retained_from_complete fs 0 i r Hi Hxy) as (j & Hj).
      destruct (retained_has_feature _ _ _ _ _ _ Hc Hj) as (f & Hf & He).
      exists j, f. eauto using romnr_emitted.
    + intros (j & f & _ & Hj & _).
      apply retained_from_lookup in Hj as (k & _ & _ & Hxy & _). exact Hxy.
Qed.

(** C5. The coordinates of the feature made from a retained record are the
    pair of the [x] and [y] found in the record's geometry, unchanged. *)
Theorem coordinates_are_geometry_x_y fs geojson out j i r :
  convert_to_app_format fs = Ok (geojson, out) ->
  retained fs !! j = Some (i, r) ->
  exists f lon lat,
    doc_features geojson !! j = Some f /\
    geometry_member (u "x") r = Some lon /\
    geometry_member (u "y") r = Some lat /\
    coordinates f = Some (JList [lon; lat]).
Proof.
  intros Hc Hj.
  destruct (retained_has_feature _ _ _ _ _ _ Hc Hj)
    as (f & Hf & lon & lat & n & Hx & Hy & _ & ->).
  eexists _, lon, lat. repeat split; eauto.
Qed.

(** ** [strip] removes the surrounding whitespace *)

Lemma lstrip_split (s : pystr) :
  exists pre,
    s = pre ++ lstrip s /\ Forall (fun c => isspace c = true) pre /\
    forall c, head (lstrip s) = Some c -> isspace c = false.
Proof.
  induction s as [|a s (pre & Hs & Hpre & Hhd)]; simpl.
  - exists []. repeat split; [constructor | discriminate].
  - destruct (isspace a) eqn:Ea.
    + exists (a :: pre). simpl. rewrite <- Hs. auto.
    + exists []. repeat split; [constructor|].
      intros c [= <-]. exact Ea.
Qed.

Lemma last_rev {A} (l : list A) : last (rev l) = head l.
Proof. destruct l as [|x l]; [reflexivity|]. simpl. apply last_snoc. Qed.

Lemma rstrip_split (s : pystr) :
  exists post,
    s = rstrip s ++ post /\ Forall (fun c => isspace c = true) post /\
    forall c, last (rstrip s) = Some c -> isspace c = false.
Proof.
  unfold rstrip. destruct (lstrip_split (rev s)) as (pre & Hs & Hpre & Hhd).
  exists (rev pre). repeat split.
  - rewrite <- List.rev_app_distr, <- Hs, List.rev_involutive. reflexivity.
  - apply List.Forall_rev, Hpre.
  - intros c. rewrite last_rev. apply Hhd.
Qed.

Lemma strip_is_trim (s : pystr) : is_trim_of (strip s) s.
Proof.
  unfold strip.
  destruct (lstrip_split s) as (pre & Hs & Hpre & Hhd).
  destruct (rstrip_split (lstrip s)) as (post & Hl & Hpost & Hlast).
  exists pre, post. repeat split; auto.
  - rewrite <- Hl. exact Hs.
  - intros c Hc. apply Hhd. rewrite Hl.
    destruct (rstrip (lstrip s)); [discriminate Hc | exact Hc].
Qed.

Lemma strip_placeholder : strip placeholder = placeholder.
Proof. reflexivity. Qed.

(** ** Address and capacity *)

Lemma adresse_emitted i r f :
  emits (i, r) f ->
  adresse f = Some (address_out (attribute (u "Gatuadress") r)).
Proof. intros (lon & lat & n & _ & _ & _ & ->). reflexivity. Qed.

Lemma plasser_emitted i r f :
  emits (i, r) f ->
  exists n, plasser f = Some (JInt n) /\
            capacity_out (attribute (u "AntalPlatser") r) = Ok n.
Proof. intros (lon & lat & n & _ & _ & Hn & ->). exists n. auto. Qed.


Lemma int_of_float_not_negative s m e z :
  int_of_float (S754_finite s m e) = Ok z -> s = false -> 0 <= z.
Proof.
  intros [= <-] ->. destruct (0 <=? e) eqn:Ee.
  - apply Z.mul_nonneg_nonneg; [lia|]. apply Z.pow_nonneg. lia.
  - apply Z.div_pos; [lia|]. apply Z.pow_pos_nonneg; lia.
Qed.

(** C3, as the code has it.  The capacity of an output feature is an
    integer.  It is the source capacity itself when that is an integer,
    whatever its sign, and it is 0 or more whenever the source capacity is
    missing, null, or not a negative number. *)
Theorem plasser_is_integer fs geojson out j i r :
  convert_to_app_format fs = Ok (geojson, out) ->
  retained fs !! j = Some (i, r) ->
  exists f z,
    doc_features geojson !! j = Some f /\
    plasser f = Some (JInt z) /\
    (forall c, attribute (u "AntalPlatser") r = Some (JInt c) -> z = c) /\
    (not_negative (attribute (u "AntalPlatser") r) = true -> 0 <= z).
Proof.
  intros Hc Hj.
  destruct (retained_has_feature _ _ _ _ _ _ Hc Hj) as (f & Hf & He).
  destruct (plasser_emitted _ _ _ He) as (z & Hz & Hcap).
  exists f, z. repeat split; auto.
  - intros c Ec. rewrite Ec in Hcap. unfold capacity_out in Hcap. simpl in Hcap.
    destruct (Z.eqb_spec c 0); simpl in Hcap; congruence.
  - unfold capacity_out, not_negative in *.
    destruct (attribute (u "AntalPlatser") r) as [v|]; [|injection Hcap; lia].
    destruct v as [|[]|c|[| | |s m e]|[|]|[|]|[|]]; simpl in Hcap;
      try (injection Hcap; lia); try discriminate.
    + destruct (Z.eqb_spec c 0); simpl in Hcap; injection Hcap; lia.
    + intros Hs. apply (int_of_float_not_negative s m e z); [exact Hcap|].
      destruct s; [discriminate Hs | reflexivity].
Qed.

Lemma int_of_float_truncates s m e z :
  int_of_float (S754_finite s m e) = Ok z -> is_truncation s m e z.
Proof.
  intros [= <-]. destruct (Z.leb_spec 0 e) as [He|He].
  - assert (Hd : 0 <= 2 ^ e) by (apply Z.pow_nonneg; lia).
    exists (Z.pos m * 2 ^ e). split; [apply Z.mul_nonneg_nonneg; lia|].
    split; [reflexivity|]. split; [reflexivity | lia].
  - assert (Hd : 0 < 2 ^ (- e)) by (apply Z.pow_pos_nonneg; lia).
    exists (Z.pos m / 2 ^ (- e)). split; [apply Z.div_pos; lia|].
    split; [reflexivity|]. split; [lia|]. intros _. split.
    + rewrite Z.mul_comm. apply Z.mul_div_le. exact Hd.
    + rewrite Z.mul_comm. apply Z.mul_succ_div_gt. exact Hd.
Qed.

(** The integer part is unique, so [is_truncation] names one integer. *)
Lemma is_truncation_unique s m e z1 z2 :
  is_truncation s m e z1 -> is_truncation s m e z2 -> z1 = z2.
Proof.
  intros (k1 & Hk1 & -> & Hpos1 & Hneg1) (k2 & Hk2 & -> & Hpos2 & Hneg2).
  assert (k1 = k2); [|subst; reflexivity].
  destruct (Z.le_gt_cases 0 e) as [He|He].
  - rewrite (Hpos1 He), (Hpos2 He). reflexivity.
  - assert (Hd : 0 < 2 ^ (- e)) by (apply Z.pow_pos_nonneg; lia).
    specialize (Hneg1 He). specialize (Hneg2 He). nia.
Qed.

(** C6, as the code has it.  The capacity of the feature made from a retained
    record is 0 when the record's capacity attribute is missing or null, and
    also when it is an empty string, list or dict; otherwise it is the
    attribute's value as an integer: an integer as it is, a boolean as 0 or
    1, a finite float cut toward zero, a non-empty string as [int] reads
    it.  A record is never retained with a capacity that has no integer. *)
Theorem plasser_of_retained fs geojson out j i r :
  convert_to_app_format fs = Ok (geojson, out) ->
  retained fs !! j = Some (i, r) ->
  exists f z,
    doc_features geojson !! j = Some f /\
    plasser f = Some (JInt z) /\
    capacity_as_integer (attribute (u "AntalPlatser") r) z.
Proof.
  intros Hc Hj.
  destruct (retained_has_feature _ _ _ _ _ _ Hc Hj) as (f & Hf & He).
  destruct (plasser_emitted _ _ _ He) as (z & Hz & Hcap).
  exists f, z. repeat split; auto.
  unfold capacity_out in Hcap. unfold capacity_as_integer.
  destruct (attribute (u "AntalPlatser") r) as [v|]; [|injection Hcap; lia].
  destruct v as [|[]|c|[| | |s m e]|[|]|[|]|[|]]; simpl in Hcap;
    try discriminate Hcap; try (injection Hcap; lia); try exact Hcap.
  - destruct (Z.eqb_spec c 0) as [E|E]; simpl in Hcap; congruence.
  - apply int_of_float_truncates. exact Hcap.
Qed.

(** ** The diagnostic counter *)

Lemma is_swedish_char c :
  existsb (fun char => str_eqb char [c]) swedish_chars = true <->
  c ∈ counted_characters.
Proof.
  unfold swedish_chars, counted_characters. cbn [existsb str_eqb].
  rewrite !andb_true_r, orb_false_r, !orb_true_iff, !N.eqb_eq.
  rewrite !elem_of_cons, elem_of_nil. intuition congruence.
Qed.

Lemma has_swedish_char_iff (s : pystr) :
  has_swedish_char s = true <-> exists c, c ∈ s /\ c ∈ counted_characters.
Proof.
  unfold has_swedish_char. rewrite List.existsb_exists.
  split; intros (c & Hin & Hc); exists c.
  - apply list_elem_of_In in Hin. split; [exact Hin | apply is_swedish_char, Hc].
  - split; [apply list_elem_of_In, Hin | apply is_swedish_char, Hc].
Qed.

Lemma counted_iff f :
  counted f = true <->
  exists s c, adresse f = Some (JStr s) /\ c ∈ s /\ c ∈ counted_characters.
Proof.
  unfold counted. split.
  - destruct (adresse f) as [[| | | |s| |]|]; try discriminate.
    intros (c & Hin & Hc)%has_swedish_char_iff. eauto.
  - intros (s & c & -> & Hin & Hc). apply has_swedish_char_iff. eauto.
Qed.

(** None of the counted characters is whitespace, so trimming does not
    change whether an address is counted. *)
Lemma has_swedish_char_strip (s : pystr) :
  has_swedish_char (strip s) = has_swedish_char s.
Proof.
  assert (Hsp : forall l, Forall (fun c => isspace c = true) l ->
                          has_swedish_char l = false).
  { induction 1 as [|c l Hc _ IH]; [reflexivity|].
    unfold has_swedish_char in *. cbn [existsb]. rewrite IH, orb_false_r.
    destruct (existsb _ swedish_chars) eqn:E; [|reflexivity].
    apply is_swedish_char in E. unfold counted_characters in E.
    rewrite !elem_of_cons, elem_of_nil in E.
    destruct E as [->|[->|[->|[->|[->|[->|[]]]]]]]; discriminate Hc. }
  destruct (strip_is_trim s) as (pre & post & Hs & Hpre & Hpost & _).
  rewrite Hs at 2. unfold has_swedish_char in *.
  rewrite !List.existsb_app, (Hsp pre Hpre), (Hsp post Hpost), orb_false_r.
  reflexivity.
Qed.

(** The counter has no influence on the features: from any starting value
    the loop succeeds alike and builds the same list. *)
Lemma convert_step_counter_irrelevant idx r st st' c :
  convert_step idx r st = Ok st' ->
  exists c',
    convert_step idx r (ConvState (features st) c (printed st)) =
    Ok (ConvState (features st') c' (printed st')).
Proof.
  unfold convert_step. cbn [features swedish_char_count printed].
  intros Hs.
  repeat match type of Hs with
         | bind ?m _ = _ =>
             destruct m as [?|?]; cbn [bind] in Hs |- *; [|discriminate Hs]
         | (if ?b then _ else _) = _ => destruct b
         | (let '(_, _) := if ?b then _ else _ in _) = _ => destruct b
         end;
    injection Hs as <-; eauto.
Qed.

Lemma convert_loop_counter_irrelevant fs : forall idx st st' c,
  convert_loop idx fs st = Ok st' ->
  exists c',
    convert_loop idx fs (ConvState (features st) c (printed st)) =
    Ok (ConvState (features st') c' (printed st')).
Proof.
  induction fs as [|r rest IH]; intros idx st st' c Hloop; simpl in *.
  - injection Hloop as <-. eauto.
  - apply bind_ok in Hloop as (st1 & Hstep & Hloop).
    destruct (convert_step_counter_irrelevant _ _ _ _ c Hstep) as (c1 & ->).
    simpl. exact (IH _ _ _ c1 Hloop).
Qed.

(** C8, as the code has it.  The counter goes up by one for a retained
    record exactly when the address put in its feature is a string holding
    one of six characters, and stays as it is for a skipped record; its
    final value is printed and is no part of the returned document, which is
    the same whatever value the counter starts from. *)
Theorem swedish_counter fs geojson out :
  convert_to_app_format fs = Ok (geojson, out) ->
  (forall idx r st st',
     convert_step idx r st = Ok st' ->
     if has_xy r then
       exists f, features st' = features st ++ [f] /\
         swedish_char_count st' =
           (swedish_char_count st + if counted f then 1 else 0)%nat
     else swedish_char_count st' = swedish_char_count st) /\
  (forall f, counted f = true <->
     exists s c, adresse f = Some (JStr s) /\ c ∈ s /\ c ∈ counted_characters) /\
  last out =
    Some (FoundSwedish (length (filter (fun f => counted f = true)
                                       (doc_features geojson)))) /\
  (forall c, exists st',
     convert_loop 0 fs (ConvState [] c [Converting]) = Ok st' /\
     make_geojson (features st') = geojson).
Proof.
  intros Hc. repeat split.
  - intros idx r st st' Hs. apply convert_step_spec in Hs.
    destruct (has_xy r); [|tauto].
    destruct Hs as (lon & lat & n & _ & _ & _ & Hf & Hn). eauto.
  - apply counted_iff.
  - apply counted_iff.
  - destruct (convert_to_app_format_spec _ _ _ Hc) as (_ & skipped & ->).
    rewrite last_app. reflexivity.
  - intros c. unfold convert_to_app_format in Hc.
    apply bind_ok in Hc as (st & Hloop & [= <- _]).
    destruct (convert_loop_counter_irrelevant _ _ _ _ c Hloop) as (c' & Hc').
    eauto.
Qed.
End TransformerProofs.

(* ===================================================================== *)
(** * Properties of the fetcher                                           *)
(* ===================================================================== *)

Section FetcherProofs.
Context `{Host}.

(** What the loop body does at a short page: it appends the page, prints,
    and leaves the loop. *)
Lemma fetch_step_short_page st data page :
  server (offset st) = Body data ->
  short_page data page ->
  fetch_step st =
  (FetchState (all_features st ++ page) (offset st)
     (fprinted st ++ Fetching (offset st) ::
        match page with [] => [] | _ => [Got (length page)] end),
   false).
Proof.
  intros Hsrv (Herr & Hfeat & Hlen). unfold fetch_step.
  cbv zeta. cbn [all_features offset fprinted]. rewrite Hsrv.
  destruct data; try discriminate Hfeat. simpl in Herr, Hfeat.
  unfold fetch_page, py_in, dict_mem, py_get.
  cbn [all_features offset fprinted bind]. rewrite Herr, Hfeat.
  destruct page as [|x page]; cbn [bind py_truthy negb py_iter py_len].
  - rewrite app_nil_r. reflexivity.
  - apply Nat.ltb_lt in Hlen. rewrite Hlen.
    cbn [all_features offset fprinted]. rewrite <- app_assoc. reflexivity.
Qed.

(** Whatever the answer, one pass asks for the page at the current offset
    once, only ever appends to the list, and goes on only after moving the
    offset forward. *)
Lemma fetch_step_shape st st1 b :
  fetch_step st = (st1, b) ->
  exists items evs,
    all_features st1 = all_features st ++ items /\
    fprinted st1 = fprinted st ++ Fetching (offset st) :: evs /\
    (forall o, Fetching o ∉ evs) /\
    (b = true -> offset st1 = (offset st + page_size)%nat).
Proof.
  unfold fetch_step. cbv zeta. cbn [all_features offset fprinted].
  assert (Hno1 : forall e, (forall o, e <> Fetching o) ->
                           forall o, Fetching o ∉ [e]).
  { intros e He o [Heq| []%elem_of_nil]%elem_of_cons.
    exact (He o (eq_sym Heq)). }
  assert (Hstop : forall st1 b,
    (FetchState (all_features st) (offset st)
       ((fprinted st ++ [Fetching (offset st)]) ++ [FetchError]), false)
    = (st1, b) ->
    exists items evs,
      all_features st1 = all_features st ++ items /\
      fprinted st1 = fprinted st ++ Fetching (offset st) :: evs /\
      (forall o, Fetching o ∉ evs) /\
      (b = true -> offset st1 = (offset st + page_size)%nat)).
  { intros ? ? [= <- <-]. exists [], [FetchError].
    cbn [all_features fprinted]. rewrite app_nil_r, <- app_assoc.
    repeat split; [apply Hno1 | ]; congruence. }
  destruct (server (offset st)) as [|data]; [apply Hstop|].
  destruct (fetch_page data _) as [[st2 b2]|e] eqn:Hpage; [|apply Hstop].
  intros [= -> ->]. clear Hstop. unfold fetch_page in Hpage.
  cbn [all_features offset fprinted] in Hpage.
  apply bind_ok in Hpage as (has_error & _ & Hpage).
  destruct has_error.
  - apply bind_ok in Hpage as (e & _ & [= <- <-]).
    exists [], [ApiError e]. cbn [all_features fprinted].
    rewrite app_nil_r, <- app_assoc.
    repeat split; [apply Hno1 | ]; congruence.
  - apply bind_ok in Hpage as (features & _ & Hpage).
    destruct (negb (py_truthy features)).
    + injection Hpage as <- <-. exists [], []. cbn [all_features fprinted].
      rewrite app_nil_r. repeat split; [|congruence].
      intros o []%elem_of_nil.
    + apply bind_ok in Hpage as (items & _ & Hpage).
      apply bind_ok in Hpage as (n & _ & Hpage).
      destruct (n <? page_size)%nat; injection Hpage as <- <-;
        exists items, [Got n]; cbn [all_features fprinted offset];
        rewrite <- app_assoc; repeat split; try apply Hno1; congruence.
Qed.

(** In a run of the loop that comes to an end, the pass that meets a short
    page is the last one: its features end the list and no query follows. *)
Lemma fetch_loop_short_page_last fuel : forall st st',
  fetch_loop fuel st = Some st' ->
  exists new,
    fprinted st' = fprinted st ++ new /\
    forall o data page,
      Fetching o ∈ new ->
      server o = Body data ->
      short_page data page ->
      (exists before, all_features st' = before ++ page) /\
      exists pre tail,
        new = pre ++ Fetching o :: tail /\ forall o', Fetching o' ∉ tail.
Proof.
  induction fuel as [|fuel IH]; intros st st' Hloop; [discriminate Hloop|].
  simpl in Hloop. destruct (fetch_step st) as [st1 b] eqn:Hstep.
  destruct (fetch_step_shape _ _ _ Hstep) as (items & evs & Hf & Hp & Hevs & Hoff).
  assert (Hhere : forall o data page,
    o = offset st -> server o = Body data -> short_page data page ->
    b = false /\ all_features st1 = all_features st ++ page).
  { intros o data page -> Hsrv Hshort.
    rewrite (fetch_step_short_page _ _ _ Hsrv Hshort) in Hstep.
    injection Hstep as <- <-. auto. }
  destruct b.
  - destruct (IH _ _ Hloop) as (new & Hp' & Hnew).
    exists (Fetching (offset st) :: evs ++ new). split.
    { rewrite Hp', Hp, <- app_assoc. reflexivity. }
    intros o data page Hin Hsrv Hshort.
    destruct (decide (o = offset st)) as [Ho|Ho].
    { destruct (Hhere _ _ _ Ho Hsrv Hshort) as [? _]. discriminate. }
    assert (Hin' : Fetching o ∈ new).
    { apply elem_of_cons in Hin as [[= ?]|Hin]; [contradiction|].
      apply elem_of_app in Hin as [Hin|Hin]; [destruct (Hevs _ Hin) | exact Hin]. }
    destruct (Hnew _ _ _ Hin' Hsrv Hshort) as (Hbefore & pre & tail & -> & Htail).
    split; [exact Hbefore|].
    exists (Fetching (offset st) :: evs ++ pre), tail.
    split; [|exact Htail]. simpl. rewrite <- app_assoc. reflexivity.
  - injection Hloop as <-.
    exists (Fetching (offset st) :: evs). split; [exact Hp|].
    intros o data page Hin Hsrv Hshort.
    apply elem_of_cons in Hin as [[= ->]|Hin]; [|destruct (Hevs _ Hin)].
    destruct (Hhere _ _ _ eq_refl Hsrv Hshort) as [_ ->].
    split; [eauto|]. exists [], evs. auto.
Qed.

(** C7. A page with fewer features than the page size is the last page
    consumed.  At whatever state the loop asks for it, the loop appends its
    features and returns without a further query; and in every run of
    [fetch_all_shelters] in which it was asked for, its features end the
    returned list and no query follows the one that fetched it, whatever the
    service would have answered at later offsets. *)
Theorem short_page_is_last o data page :
  server o = Body data ->
  short_page data page ->
  (forall fuel st,
     offset st = o ->
     fetch_loop (S fuel) st =
     Some (FetchState (all_features st ++ page) o
             (fprinted st ++ Fetching o ::
                match page with [] => [] | _ => [Got (length page)] end))) /\
  (forall fuel fetched out,
     fetch_all_shelters fuel = Some (fetched, out) ->
     Fetching o ∈ out ->
     (exists before, fetched = before ++ page) /\
     exists pre tail,
       out = pre ++ Fetching o :: tail /\ forall o', Fetching o' ∉ tail).
Proof.
  intros Hsrv Hshort. split.
  - intros fuel st <-. simpl.
    rewrite (fetch_step_short_page _ _ _ Hsrv Hshort). reflexivity.
  - unfold fetch_all_shelters. intros fuel fetched out Hrun Hin.
    destruct (fetch_loop fuel _) as [st'|] eqn:Hloop; [|discriminate Hrun].
    injection Hrun as <- <-.
    destruct (fetch_loop_short_page_last _ _ _ Hloop) as (new & Hp & Hnew).
    cbn [fprinted] in Hp. rewrite Hp in Hin |- *.
    assert (Hin' : Fetching o ∈ new).
    { rewrite !elem_of_app, !elem_of_cons, !elem_of_nil in Hin.
      destruct Hin as [[[Hin|[]]|Hin]|[Hin|[]]]; try discriminate Hin.
      exact Hin. }
    destruct (Hnew _ _ _ Hin' Hsrv Hshort)
      as (Hbefore & pre & tail & -> & Htail).
    split; [exact Hbefore|].
    exists (Downloading :: pre),
           (tail ++ [Downloaded (length (all_features st'))]).
    split; [simpl; rewrite <- app_assoc; reflexivity|].
    intros o' [Ho|Ho]%elem_of_app; [exact (Htail _ Ho)|].
    apply elem_of_cons in Ho as [Ho|[]%elem_of_nil]. discriminate Ho.
Qed.
End FetcherProofs.

(* ===================================================================== *)
(** * Properties of the script body                                       *)
(* ===================================================================== *)

Section ScriptProofs.
Context `{Python} `{Host}.

(** C9, as the code has it.  Once the fetch loop has ended the process
    exits with status 1 when no record was fetched; with at least one record
    it reaches the end of the script, status 0, provided neither the
    conversion nor the writing and reading back of the file raises; an
    exception from either ends the process with status 1 as well. *)
Theorem exit_status fuel fetched out :
  fetch_all_shelters fuel = Some (fetched, out) ->
  exists code,
    main fuel = Some code /\
    (fetched = [] -> code = 1) /\
    (forall geojson log text,
       fetched <> [] ->
       convert_to_app_format fetched = Ok (geojson, log) ->
       store geojson = Ok text ->
       code = 0) /\
    (fetched <> [] ->
     (exists e, convert_to_app_format fetched = Raise e) \/
     (exists geojson log e,
        convert_to_app_format fetched = Ok (geojson, log) /\
        store geojson = Raise e) ->
     code = 1).
Proof.
  intros Hfetch. unfold main. rewrite Hfetch.
  eexists. split; [reflexivity|]. unfold run_after_fetch.
  destruct fetched as [|r rest]; cbn [py_truthy negb].
  - repeat split; congruence.
  - split; [discriminate|]. split.
    + intros geojson log text _ -> ->. reflexivity.
    + intros _ [(e & ->)|(geojson & log & e & -> & ->)]; reflexivity.
Qed.
End ScriptProofs.

(* ===================================================================== *)
(** * Concrete runs                                                       *)
(* ===================================================================== *)

(** C1: a skipped record followed by a retained one; the only feature of the
    output, at position 0, carries [romnr] 1. *)
Lemma romnr_counts_skipped_records :
  ~ @romnr_is_output_position plain [raw [] []; raw [] at_18_59].
Proof.
  intros Hclaim.
  pose proof (Hclaim _ _ 0%nat _ eq_refl eq_refl) as Hromnr.
  vm_compute in Hromnr. discriminate Hromnr.
Qed.

(** C2: a record whose geometry has [x] but no [y] is skipped. *)
Lemma record_with_x_only_is_skipped :
  ~ @skips_only_without_x_and_y plain
      [raw [] [(u "x", JFloat (S754_finite false 37 (-1)))]].
Proof.
  intros Hclaim. pose proof (Hclaim _ _ eq_refl) as Hlen.
  vm_compute in Hlen. discriminate Hlen.
Qed.

(** C3: a source capacity of -5 gives [plasser] -5. *)
Lemma negative_capacity_is_kept :
  ~ @capacity_is_non_negative plain
      [raw [(u "AntalPlatser", JInt (-5))] at_18_59].
Proof.
  intros Hclaim.
  destruct (Hclaim _ _ 0%nat _ eq_refl eq_refl) as (z & Hz & Hpos).
  vm_compute in Hz. injection Hz as <-. lia.
Qed.


(** C6: a capacity that is an empty list (or an empty string) is not null,
    and [int] raises on it, yet the record is retained with [plasser] 0. *)
Lemma empty_capacity_gives_0 : ~ @zero_or_coerced plain empty_capacity_records.
Proof.
  intros Hclaim.
  pose proof (Hclaim _ _ 1%nat _ _ _ eq_refl eq_refl eq_refl) as Hcap.
  destruct Hcap as (z & Hint & _). discriminate Hint.
Qed.

(** C8: no eight distinct characters decide the counter's test; one of any
    eight lies outside the six the code looks for. *)
Lemma no_eight_characters : ~ counts_eight_characters.
Proof.
  intros (chars & Hnodup & Hlen & Hiff).
  destruct (decide (Forall (fun c => c ∈ counted_characters) chars))
    as [Hall|Hnot].
  - assert (Hsub : chars ⊆+ counted_characters).
    { apply NoDup_submseteq; [exact Hnodup|].
      intros c Hc. exact (proj1 (Forall_forall _ _) Hall c Hc). }
    apply submseteq_length in Hsub. rewrite Hlen in Hsub.
    vm_compute in Hsub. lia.
  - apply not_Forall_Exists in Hnot; [|intros c; apply _].
    apply Exists_exists in Hnot as (c & Hc & Hout). apply Hout.
    assert (Htest : existsb (fun char => str_infixb char [c]) swedish_chars
                    = true).
    { apply Hiff. exists c. split; [apply list_elem_of_singleton|]; auto. }
    rewrite any_swedish_char in Htest.
    apply has_swedish_char_iff in Htest as (c' & ->%list_elem_of_singleton & Hc').
    exact Hc'.
Qed.

(** C9: one record is fetched, its geometry is null, the conversion raises
    on it and the process ends with status 1. *)
Lemma exit_1_with_a_fetched_record :
  ~ @exit_1_iff_nothing_fetched plain
      (serving [JDict [(u "attributes", JDict []); (u "geometry", JNull)]]) 1.
Proof.
  intros Hclaim. destruct (Hclaim _ _ eq_refl) as [_ Hzero].
  assert (Hne : [JDict [(u "attributes", JDict []); (u "geometry", JNull)]]
                <> []) by discriminate.
  specialize (Hzero Hne). vm_compute in Hzero. discriminate Hzero.
Qed.

(** ** The theorems at [example_records] *)

Lemma romnr_strictly_increasing_example :
  exists geojson out f1 f2,
    @convert_to_app_format plain example_records = Ok (geojson, out) /\
    (0 < 1)%nat /\
    doc_features geojson !! 0%nat = Some f1 /\
    doc_features geojson !! 1%nat = Some f2 /\
    exists i1 i2 r1 r2,
      romnr f1 = Some (JInt (Z.of_nat i1)) /\
      romnr f2 = Some (JInt (Z.of_nat i2)) /\
      example_records !! i1 = Some r1 /\
      retained example_records !! 0%nat = Some (i1, r1) /\
      example_records !! i2 = Some r2 /\
      retained example_records !! 1%nat = Some (i2, r2) /\
      (i1 < i2)%nat.
Proof.
  eexists _, _, _, _.
  split; [reflexivity|]. split; [lia|].
  split; [reflexivity|]. split; [reflexivity|].
  eapply (@romnr_strictly_increasing plain example_records _ _ 0%nat 1%nat);
    [reflexivity | lia | reflexivity | reflexivity].
Defined.

Lemma romnr_is_input_position_example :
  exists geojson out f,
    @convert_to_app_format plain example_records = Ok (geojson, out) /\
    doc_features geojson !! 1%nat = Some f /\
    exists i r,
      romnr f = Some (JInt (Z.of_nat i)) /\
      example_records !! i = Some r /\ has_xy r = true /\
      i = (1 + length (filter (fun r => has_xy r = false)
                              (take i example_records)))%nat.
Proof.
  eexists _, _, _. split; [reflexivity|]. split; [reflexivity|].
  eapply (@romnr_is_input_position plain example_records _ _ 1%nat);
    reflexivity.
Defined.

Lemma one_feature_per_record_with_x_and_y_example :
  exists geojson out,
    @convert_to_app_format plain example_records = Ok (geojson, out) /\
    length (doc_features geojson) =
      length (filter (fun r => has_xy r = true) example_records) /\
    forall i r, example_records !! i = Some r ->
      (has_xy r = true <->
       exists j f, doc_features geojson !! j = Some f /\
                   retained example_records !! j = Some (i, r) /\
                   romnr f = Some (JInt (Z.of_nat i))).
Proof.
  eexists _, _. split; [reflexivity|].
  eapply (@one_feature_per_record_with_x_and_y plain example_records).
  reflexivity.
Defined.

Lemma coordinates_are_geometry_x_y_example :
  exists geojson out r,
    @convert_to_app_format plain example_records = Ok (geojson, out) /\
    retained example_records !! 1%nat = Some (2%nat, r) /\
    exists f lon lat,
      doc_features geojson !! 1%nat = Some f /\
      geometry_member (u "x") r = Some lon /\
      geometry_member (u "y") r = Some lat /\
      coordinates f = Some (JList [lon; lat]).
Proof.
  eexists _, _, _. split; [reflexivity|]. split; [reflexivity|].
  eapply (@coordinates_are_geometry_x_y plain example_records _ _ 1%nat 2%nat);
    reflexivity.
Defined.


Lemma plasser_is_integer_example :
  exists geojson out r,
    @convert_to_app_format plain example_records = Ok (geojson, out) /\
    retained example_records !! 1%nat = Some (2%nat, r) /\
    exists f z,
      doc_features geojson !! 1%nat = Some f /\
      plasser f = Some (JInt z) /\
      (forall c, attribute (u "AntalPlatser") r = Some (JInt c) -> z = c) /\
      (not_negative (attribute (u "AntalPlatser") r) = true -> 0 <= z).
Proof.
  eexists _, _, _. split; [reflexivity|]. split; [reflexivity|].
  eapply (@plasser_is_integer plain example_records _ _ 1%nat 2%nat);
    reflexivity.
Defined.

Lemma plasser_of_retained_example :
  exists geojson out r,
    @convert_to_app_format plain float_capacity_records = Ok (geojson, out) /\
    retained float_capacity_records !! 0%nat = Some (0%nat, r) /\
    exists f z,
      doc_features geojson !! 0%nat = Some f /\
      plasser f = Some (JInt z) /\
      @capacity_as_integer plain (attribute (u "AntalPlatser") r) z.
Proof.
  eexists _, _, _. split; [reflexivity|]. split; [reflexivity|].
  eapply (@plasser_of_retained plain float_capacity_records _ _ 0%nat 0%nat);
    reflexivity.
Defined.

Lemma swedish_counter_example :
  exists geojson out,
    @convert_to_app_format plain example_records = Ok (geojson, out) /\
    last out =
      Some (FoundSwedish (length (filter (fun f => counted f = true)
                                         (doc_features geojson)))) /\
    forall c, exists st',
      @convert_loop plain 0 example_records (ConvState [] c [Converting])
        = Ok st' /\
      make_geojson (features st') = geojson.
Proof.
  eexists _, _. split; [reflexivity|].
  refine (let thm := @swedish_counter plain example_records _ _ eq_refl in _).
  split; [apply thm | apply thm].
Defined.

Lemma short_page_is_last_example :
  exists data,
    @server (serving example_records) 0%nat = Body data /\
    short_page data example_records /\
    (forall fuel st,
       offset st = 0%nat ->
       @fetch_loop (serving example_records) (S fuel) st =
       Some (FetchState (all_features st ++ example_records) 0
               (fprinted st ++ [Fetching 0; Got (length example_records)]))) /\
    (forall fuel fetched out,
       @fetch_all_shelters (serving example_records) fuel
         = Some (fetched, out) ->
       Fetching 0 ∈ out ->
       (exists before, fetched = before ++ example_records) /\
       exists pre tail,
         out = pre ++ Fetching 0 :: tail /\ forall o', Fetching o' ∉ tail).
Proof.
  eexists. split; [reflexivity|].
  assert (Hshort : short_page
            (JDict [(u "features", JList example_records)]) example_records).
  { repeat split. apply Nat.ltb_lt. reflexivity. }
  split; [exact Hshort|].
  exact (@short_page_is_last (serving example_records) 0%nat _ _
           eq_refl Hshort).
Defined.

Lemma exit_status_example :
  exists fetched out,
    @fetch_all_shelters (serving example_records) 1 = Some (fetched, out) /\
    exists code,
      @main plain (serving example_records) 1 = Some code /\
      (fetched = [] -> code = 1) /\
      (forall geojson log text,
         fetched <> [] ->
         @convert_to_app_format plain fetched = Ok (geojson, log) ->
         @store (serving example_records) geojson = Ok text ->
         code = 0) /\
      (fetched <> [] ->
       (exists e, @convert_to_app_format plain fetched = Raise e) \/
       (exists geojson log e,
          @convert_to_app_format plain fetched = Ok (geojson, log) /\
          @store (serving example_records) geojson = Raise e) ->
       code = 1).
Proof.
  eexists _, _. split; [reflexivity|].
  eapply (@exit_status plain (serving example_records) 1). reflexivity.
Defined.

(* ===================================================================== *)
(** * Whole runs of the fetcher                                           *)
(* ===================================================================== *)

Section FetcherRuns.
Context `{Host}.

Lemma fetch_step_full_page st data page :
  server (offset st) = Body data ->
  full_page data page ->
  fetch_step st =
  (FetchState (all_features st ++ page) (offset st + page_size)
     (fprinted st ++ [Fetching (offset st); Got (length page)]),
   true).
Proof.
  intros Hsrv (Herr & Hfeat & Hlen). unfold fetch_step.
  cbv zeta. cbn [all_features offset fprinted]. rewrite Hsrv.
  destruct data; try discriminate Hfeat. simpl in Herr, Hfeat.
  unfold fetch_page, py_in, dict_mem, py_get.
  cbn [all_features offset fprinted bind]. rewrite Herr, Hfeat.
  destruct page as [|x page]; [unfold page_size in Hlen; simpl in Hlen; lia|].
  cbn [bind py_truthy negb py_iter py_len].
  apply Nat.ltb_ge in Hlen. rewrite Hlen.
  cbn [all_features offset fprinted]. rewrite <- app_assoc. reflexivity.
Qed.

Lemma serves_full_pages_tail from page rest :
  serves_full_pages from (page :: rest) ->
  serves_full_pages (from + page_size) rest.
Proof.
  intros Hs i p Hi. destruct (Hs (S i) p Hi) as (data & Hsrv & Hfull).
  exists data. split; [|exact Hfull].
  rewrite <- Hsrv. f_equal. unfold page_size. lia.
Qed.

Lemma fetch_loop_full_pages pages : forall st fuel,
  serves_full_pages (offset st) pages ->
  fetch_loop (length pages + fuel) st = fetch_loop fuel (after_pages st pages).
Proof.
  induction pages as [|page rest IH]; intros st fuel Hs; [reflexivity|].
  destruct (Hs 0%nat page eq_refl) as (data & Hsrv & Hfull).
  rewrite Nat.mul_0_l, Nat.add_0_r in Hsrv.
  cbn [length Nat.add fetch_loop after_pages].
  rewrite (fetch_step_full_page _ _ _ Hsrv Hfull).
  apply IH. cbn [offset]. exact (serves_full_pages_tail _ _ _ Hs).
Qed.

Lemma after_pages_features pages : forall st,
  all_features (after_pages st pages) = all_features st ++ concat pages.
Proof.
  induction pages as [|page rest IH]; intros st; simpl.
  - rewrite app_nil_r. reflexivity.
  - rewrite IH. cbn [all_features]. rewrite <- app_assoc. reflexivity.
Qed.

Lemma after_pages_offset pages : forall st,
  offset (after_pages st pages) = (offset st + length pages * page_size)%nat.
Proof.
  induction pages as [|page rest IH]; intros st; cbn [after_pages length];
    [lia|].
  rewrite IH. cbn [offset]. unfold page_size. lia.
Qed.

Lemma requests_app l1 l2 : requests (l1 ++ l2) = requests l1 ++ requests l2.
Proof. apply omap_app. Qed.

Lemma after_pages_requests pages : forall st,
  requests (fprinted (after_pages st pages)) =
  requests (fprinted st) ++
  map (fun i => (offset st + i * page_size)%nat) (seq 0 (length pages)).
Proof.
  induction pages as [|page rest IH]; intros st.
  - simpl. rewrite app_nil_r. reflexivity.
  - cbn [after_pages]. rewrite IH. cbn [fprinted offset].
    rewrite requests_app, <- app_assoc. f_equal.
    cbn [length seq map]. rewrite Nat.mul_0_l, Nat.add_0_r.
    change (requests [Fetching (offset st); Got (length page)])
      with [offset st].
    cbn [app]. f_equal. rewrite <- seq_shift, map_map.
    apply map_ext. intros i. unfold page_size. lia.
Qed.

Lemma requests_none evs : (forall o, Fetching o ∉ evs) -> requests evs = [].
Proof.
  induction evs as [|e evs IH]; intros Hno; [reflexivity|].
  assert (Hrest : requests evs = []).
  { apply IH. intros o Ho. apply (Hno o). right. exact Ho. }
  destruct e; try exact Hrest.
  destruct (Hno offset0). left.
Qed.

Lemma fetch_page_goes_on data st st1 :
  fetch_page data st = Ok (st1, true) ->
  exists d feats items,
    data = JDict d /\
    dict_get (u "error") d = None /\
    dict_get (u "features") d = Some feats /\
    py_iter feats = Ok items /\
    (page_size <= length items)%nat /\
    st1 = FetchState (all_features st ++ items) (offset st + page_size)
            (fprinted st ++ [Got (length items)]).
Proof.
  unfold fetch_page. intros Hpage.
  apply bind_ok in Hpage as (has_error & Herr & Hpage).
  destruct has_error.
  { apply bind_ok in Hpage as (e & _ & [= _ ?]). }
  apply bind_ok in Hpage as (features & Hfeat & Hpage).
  destruct (negb (py_truthy features)) eqn:Htruthy; [discriminate Hpage|].
  apply bind_ok in Hpage as (items & Hiter & Hpage).
  apply bind_ok in Hpage as (n & Hlen & Hpage).
  destruct (n <? page_size)%nat eqn:Hn; [discriminate Hpage|].
  injection Hpage as <-. cbn [all_features offset fprinted].
  destruct data; try discriminate Hfeat.
  unfold py_in, dict_mem in Herr. unfold py_get in Hfeat.
  destruct (dict_get (u "error") d) eqn:Ed; [discriminate Herr|].
  destruct (dict_get (u "features") d) as [feats|] eqn:Ef;
    injection Hfeat as <-; [|discriminate Htruthy].
  apply Nat.ltb_ge in Hn.
  assert (Hnl : n = length items).
  { destruct feats; try discriminate Hiter;
      injection Hiter as <-; injection Hlen as <-;
      rewrite ?length_map; reflexivity. }
  subst n. exists d, feats, items. auto 10.
Qed.

(** X4. The loop goes on to a next query only after a body without an
    [error] member whose [features] held at least [page_size] items, all of
    which it has appended; the offset then moves on by [page_size], however
    many items came. *)
Theorem fetch_goes_on_only_after_full_page st st1 :
  fetch_step st = (st1, true) ->
  exists d feats items,
    server (offset st) = Body (JDict d) /\
    dict_get (u "error") d = None /\
    dict_get (u "features") d = Some feats /\
    py_iter feats = Ok items /\
    (page_size <= length items)%nat /\
    st1 = FetchState (all_features st ++ items) (offset st + page_size)
            (fprinted st ++ [Fetching (offset st); Got (length items)]).
Proof.
  unfold fetch_step. cbv zeta. cbn [all_features offset fprinted].
  destruct (server (offset st)) as [|data]; [discriminate|].
  destruct (fetch_page data _) as [[st2 b2]|e] eqn:Hpage; [|discriminate].
  intros [= -> ->].
  apply fetch_page_goes_on in Hpage
    as (d & feats & items & -> & Herr & Hfeat & Hiter & Hlen & ->).
  cbn [all_features offset fprinted].
  exists d, feats, items. rewrite <- app_assoc. auto 10.
Qed.

Lemma fetch_loop_requests fuel : forall st st',
  fetch_loop fuel st = Some st' ->
  exists n,
    requests (fprinted st') =
      requests (fprinted st) ++
      map (fun i => (offset st + i * page_size)%nat) (seq 0 (S n)) /\
    (length (all_features st) + n * page_size <= length (all_features st'))%nat.
Proof.
  induction fuel as [|fuel IH]; intros st st' Hloop; [discriminate Hloop|].
  simpl in Hloop. destruct (fetch_step st) as [st1 [|]] eqn:Hstep.
  - assert (exists items,
              (page_size <= length items)%nat /\
              st1 = FetchState (all_features st ++ items)
                      (offset st + page_size)
                      (fprinted st ++ [Fetching (offset st);
                                       Got (length items)]))
      as (items & Hlen & ->).
    { unfold fetch_step in Hstep. cbv zeta in Hstep.
      cbn [all_features offset fprinted] in Hstep.
      destruct (server (offset st)) as [|data]; [discriminate Hstep|].
      destruct (fetch_page data _) as [[st2 b2]|e] eqn:Hpage;
        [|discriminate Hstep].
      injection Hstep as -> ->.
      apply fetch_page_goes_on in Hpage
        as (d & feats & items & _ & _ & _ & _ & Hlen & ->).
      cbn [all_features offset fprinted].
      exists items. rewrite <- app_assoc. auto. }
    destruct (IH _ _ Hloop) as (n & Hreq & Hsize).
    cbn [fprinted offset all_features] in Hreq, Hsize.
    exists (S n). split.
    + rewrite Hreq, requests_app, <- app_assoc. f_equal.
      change (requests [Fetching (offset st); Got (length items)])
        with [offset st].
      change (seq 0 (S (S n))) with (0%nat :: seq 1 (S n)).
      cbn [map app]. rewrite Nat.mul_0_l, Nat.add_0_r. f_equal.
      rewrite <- seq_shift, map_map. apply map_ext. intros i.
      unfold page_size. lia.
    + rewrite length_app in Hsize. unfold page_size in *. lia.
  - injection Hloop as <-.
    destruct (fetch_step_shape _ _ _ Hstep) as (items & evs & Hf & Hp & Hno & _).
    exists 0%nat. split.
    + rewrite Hp, requests_app.
      change (requests (Fetching (offset st) :: evs))
        with (offset st :: requests evs).
      rewrite (requests_none _ Hno). simpl. rewrite Nat.add_0_r. reflexivity.
    + rewrite Hf, length_app. lia.
Qed.

(** X5. In every run that ends, the queries went to the offsets 0,
    [page_size], 2 * [page_size], ... without gap or repeat, at least one
    was made, and every query but the last brought at least [page_size]
    records. *)
Theorem fetch_offsets_and_count fuel fetched out :
  fetch_all_shelters fuel = Some (fetched, out) ->
  exists n,
    requests out = map (fun i => (i * page_size)%nat) (seq 0 (S n)) /\
    (n * page_size <= length fetched)%nat.
Proof.
  unfold fetch_all_shelters. intros Hrun.
  destruct (fetch_loop fuel _) as [st'|] eqn:Hloop; [|discriminate Hrun].
  injection Hrun as <- <-.
  destruct (fetch_loop_requests _ _ _ Hloop) as (n & Hreq & Hsize).
  cbn [fprinted offset all_features length] in Hreq, Hsize.
  exists n. split; [|exact Hsize].
  rewrite requests_app, Hreq, app_nil_r. reflexivity.
Qed.

Lemma fetch_step_no_features st d :
  server (offset st) = Body (JDict d) ->
  dict_get (u "error") d = None ->
  match dict_get (u "features") d with
  | None => True
  | Some v => py_truthy v = false
  end ->
  fetch_step st =
  (FetchState (all_features st) (offset st)
     (fprinted st ++ [Fetching (offset st)]),
   false).
Proof.
  intros Hsrv Herr Hfeat. unfold fetch_step. cbv zeta.
  cbn [all_features offset fprinted]. rewrite Hsrv.
  unfold fetch_page, py_in, dict_mem, py_get. rewrite Herr. cbn [bind].
  destruct (dict_get (u "features") d) as [v|];
    [rewrite Hfeat|]; reflexivity.
Qed.

Lemma fetch_step_failed st :
  server (offset st) = Failed \/
  (exists data, server (offset st) = Body data /\ forall d, data <> JDict d) ->
  fetch_step st =
  (FetchState (all_features st) (offset st)
     (fprinted st ++ [Fetching (offset st); FetchError]),
   false).
Proof.
  intros Hsrv. unfold fetch_step. cbv zeta.
  cbn [all_features offset fprinted]. rewrite <- app_assoc.
  destruct Hsrv as [->|(data & -> & Hnd)]; [reflexivity|].
  unfold fetch_page, py_in, py_get, py_getitem.
  destruct data as [| | | |s|l|d]; try reflexivity.
  - destruct (str_infixb _ s); reflexivity.
  - destruct (existsb _ l); reflexivity.
  - destruct (Hnd d eq_refl).
Qed.

Lemma fetch_step_api_error st d e :
  server (offset st) = Body (JDict d) ->
  dict_get (u "error") d = Some e ->
  fetch_step st =
  (FetchState (all_features st) (offset st)
     (fprinted st ++ [Fetching (offset st); ApiError e]),
   false).
Proof.
  intros Hsrv Herr. unfold fetch_step. cbv zeta.
  cbn [all_features offset fprinted]. rewrite Hsrv.
  unfold fetch_page, py_in, dict_mem, py_getitem.
  rewrite Herr. cbn [bind all_features offset fprinted].
  rewrite <- app_assoc. reflexivity.
Qed.

(** X1. When the service answers the first queries with full pages and the
    next one with a short page, the run ends after that query and returns
    the pages joined in order, the short one last. *)
Theorem fetch_joins_pages pages last data fuel :
  serves_full_pages 0 pages ->
  server (length pages * page_size) = Body data ->
  short_page data last ->
  exists out,
    fetch_all_shelters (length pages + S fuel) =
      Some (concat pages ++ last, out) /\
    requests out =
      map (fun i => (i * page_size)%nat) (seq 0 (S (length pages))).
Proof.
  intros Hfull Hsrv Hshort. unfold fetch_all_shelters.
  rewrite fetch_loop_full_pages by exact Hfull.
  set (st := after_pages (FetchState [] 0 [Downloading]) pages).
  assert (Hoff : offset st = (length pages * page_size)%nat).
  { unfold st. rewrite after_pages_offset. reflexivity. }
  cbn [fetch_loop].
  rewrite (fetch_step_short_page st data last);
    [| rewrite Hoff; exact Hsrv | exact Hshort].
  eexists. split.
  - cbn [all_features]. unfold st at 1. rewrite after_pages_features.
    reflexivity.
  - cbn [fprinted]. rewrite !requests_app. unfold st at 1.
    rewrite after_pages_requests. cbn [fprinted offset].
    change (requests [Downloading]) with (@nil nat).
    change (requests [Downloaded _]) with (@nil nat).
    rewrite app_nil_r, app_nil_l, Hoff.
    replace (requests (Fetching _ :: _)) with [(length pages * page_size)%nat]
      by (destruct last; reflexivity).
    rewrite seq_S, map_app. reflexivity.
Qed.

(** X2. When a query raises, or its body is not a JSON object, after full
    pages, the run ends there without another try and returns the pages
    received so far. *)
Theorem fetch_failure_keeps_pages pages fuel :
  serves_full_pages 0 pages ->
  server (length pages * page_size) = Failed \/
  (exists data, server (length pages * page_size) = Body data /\
                forall d, data <> JDict d) ->
  exists pre,
    fetch_all_shelters (length pages + S fuel) =
      Some (concat pages,
            pre ++ [Fetching (length pages * page_size); FetchError;
                    Downloaded (length (concat pages))]) /\
    requests pre = map (fun i => (i * page_size)%nat) (seq 0 (length pages)).
Proof.
  intros Hfull Hsrv. unfold fetch_all_shelters.
  rewrite fetch_loop_full_pages by exact Hfull.
  set (st := after_pages (FetchState [] 0 [Downloading]) pages).
  assert (Hoff : offset st = (length pages * page_size)%nat).
  { unfold st. rewrite after_pages_offset. reflexivity. }
  assert (Hfeat : all_features st = concat pages).
  { unfold st. rewrite after_pages_features. reflexivity. }
  assert (Hreq : requests (fprinted st) =
                 map (fun i => (i * page_size)%nat) (seq 0 (length pages))).
  { unfold st. rewrite after_pages_requests. reflexivity. }
  assert (Hstep := fetch_step_failed st).
  rewrite Hoff in Hstep. specialize (Hstep Hsrv).
  cbn [fetch_loop]. rewrite Hstep. cbn [all_features fprinted].
  exists (fprinted st). rewrite Hfeat, <- app_assoc. split; [reflexivity|].
  exact Hreq.
Qed.

(** X3. When a body carries an [error] member after full pages, the run ends
    there, prints the member, takes nothing from that body and returns the
    pages received so far. *)
Theorem fetch_api_error_keeps_pages pages d e fuel :
  serves_full_pages 0 pages ->
  server (length pages * page_size) = Body (JDict d) ->
  dict_get (u "error") d = Some e ->
  exists pre,
    fetch_all_shelters (length pages + S fuel) =
      Some (concat pages,
            pre ++ [Fetching (length pages * page_size); ApiError e;
                    Downloaded (length (concat pages))]) /\
    requests pre = map (fun i => (i * page_size)%nat) (seq 0 (length pages)).
Proof.
  intros Hfull Hsrv Herr. unfold fetch_all_shelters.
  rewrite fetch_loop_full_pages by exact Hfull.
  set (st := after_pages (FetchState [] 0 [Downloading]) pages).
  assert (Hoff : offset st = (length pages * page_size)%nat).
  { unfold st. rewrite after_pages_offset. reflexivity. }
  assert (Hfeat : all_features st = concat pages).
  { unfold st. rewrite after_pages_features. reflexivity. }
  assert (Hreq : requests (fprinted st) =
                 map (fun i => (i * page_size)%nat) (seq 0 (length pages))).
  { unfold st. rewrite after_pages_requests. reflexivity. }
  assert (Hstep := fetch_step_api_error st d e).
  rewrite Hoff in Hstep. specialize (Hstep Hsrv Herr).
  cbn [fetch_loop]. rewrite Hstep. cbn [all_features fprinted].
  exists (fprinted st). rewrite Hfeat, <- app_assoc. split; [reflexivity|].
  exact Hreq.
Qed.

(** X6. The loop has no bound of its own: against a service that answers every
    query with a full page it never leaves, however many passes it is
    given. *)
Theorem fetch_never_ends_on_full_pages :
  (forall i, exists data page,
     server (i * page_size)%nat = Body data /\ full_page data page) ->
  forall fuel, fetch_all_shelters fuel = None.
Proof.
  intros Hall fuel. unfold fetch_all_shelters.
  assert (Hloop : forall fuel st i,
            offset st = (i * page_size)%nat -> fetch_loop fuel st = None).
  { clear fuel. induction fuel as [|fuel IH]; intros st i Hoff; [reflexivity|].
    destruct (Hall i) as (data & page & Hsrv & Hfull).
    rewrite <- Hoff in Hsrv. cbn [fetch_loop].
    rewrite (fetch_step_full_page _ _ _ Hsrv Hfull).
    apply (IH _ (S i)). cbn [offset]. rewrite Hoff. unfold page_size. lia. }
  rewrite (Hloop fuel (FetchState [] 0 [Downloading]) 0%nat eq_refl).
  reflexivity.
Qed.
End FetcherRuns.

(* ===================================================================== *)
(** * Whole runs of the transformer                                       *)
(* ===================================================================== *)

Section TransformerRuns.
Context `{Python}.

Lemma convert_loop_split fs1 : forall fs2 idx st,
  convert_loop idx (fs1 ++ fs2) st =
  (st1 <- convert_loop idx fs1 st ;;
   convert_loop (idx + length fs1) fs2 st1).
Proof.
  induction fs1 as [|r rest IH]; intros fs2 idx st.
  - simpl. rewrite Nat.add_0_r. reflexivity.
  - cbn [app convert_loop length].
    destruct (convert_step idx r st) as [st1|e]; cbn [bind]; [|reflexivity].
    rewrite IH. rewrite Nat.add_succ_r. reflexivity.
Qed.

Lemma skipped_from_cons idx r rest :
  skipped_from idx (r :: rest) =
  if has_xy r then skipped_from (S idx) rest
  else idx :: skipped_from (S idx) rest.
Proof.
  unfold skipped_from. rewrite imap_cons, Nat.add_0_r.
  rewrite (imap_ext _ (fun i r => ((S idx + i)%nat, r)) rest)
    by (intros; simpl; f_equal; lia).
  rewrite filter_cons. simpl.
  destruct (has_xy r); reflexivity.
Qed.

Lemma skipped_retained_length fs : forall idx,
  (length (retained_from idx fs) + length (skipped_from idx fs))%nat =
  length fs.
Proof.
  induction fs as [|r rest IH]; intros idx; [reflexivity|].
  rewrite retained_from_cons, skipped_from_cons.
  specialize (IH (S idx)). destruct (has_xy r); simpl; lia.
Qed.

Lemma convert_step_printed idx r st st' :
  convert_step idx r st = Ok st' ->
  printed st' = printed st ++ (if has_xy r then [] else [Skipping idx]).
Proof.
  intros Hs. pose proof (convert_step_spec _ _ _ _ Hs) as Hspec.
  assert (Hlen : forall (l : list json) x, l ++ [x] <> l).
  { intros l x E. apply (f_equal length) in E.
    rewrite length_app in E. simpl in E. lia. }
  unfold convert_step in Hs.
  repeat match type of Hs with
         | bind ?m _ = _ =>
             destruct m as [?|?]; cbn [bind] in Hs; [|discriminate Hs]
         | (if ?b then _ else _) = _ => destruct b
         | (let '(_, _) := if ?b then _ else _ in _) = _ => destruct b
         end;
    injection Hs as <-; cbn [features printed] in *;
    destruct (has_xy r);
    try (rewrite app_nil_r; reflexivity); try reflexivity;
    try (destruct Hspec as [Hf _]; destruct (Hlen _ _ Hf));
    try (destruct Hspec as (? & ? & ? & _ & _ & _ & Hf & _);
         symmetry in Hf; destruct (Hlen _ _ Hf)).
Qed.

Lemma convert_loop_printed fs : forall idx st st',
  convert_loop idx fs st = Ok st' ->
  printed st' = printed st ++ map Skipping (skipped_from idx fs).
Proof.
  induction fs as [|r rest IH]; intros idx st st' Hloop.
  - injection Hloop as <-. simpl. rewrite app_nil_r. reflexivity.
  - simpl in Hloop. apply bind_ok in Hloop as (st1 & Hstep & Hloop).
    rewrite (IH _ _ _ Hloop), (convert_step_printed _ _ _ _ Hstep).
    rewrite skipped_from_cons, <- app_assoc.
    destruct (has_xy r); reflexivity.
Qed.

(** X7. Every input record is accounted for: what the conversion prints is the
    opening line, one line per skipped record with its input position, in
    order, and the two closing counts; features and skip lines together are
    as many as the input records, and the count of addresses with Swedish
    characters never exceeds the count of features. *)
Theorem conversion_accounts_for_every_record fs geojson out :
  convert_to_app_format fs = Ok (geojson, out) ->
  out = Converting :: map Skipping (skipped fs)
          ++ [Converted (length (doc_features geojson));
              FoundSwedish
                (length (filter (fun f => counted f = true)
                                (doc_features geojson)))] /\
  (length (doc_features geojson) + length (skipped fs))%nat = length fs /\
  (length (filter (fun f => counted f = true) (doc_features geojson))
   <= length (doc_features geojson))%nat /\
  forall i, i ∈ skipped fs <->
            exists r, fs !! i = Some r /\ has_xy r = false.
Proof.
  intros Hc.
  pose proof (convert_to_app_format_spec _ _ _ Hc) as (Hall & _).
  unfold convert_to_app_format in Hc.
  apply bind_ok in Hc as (st & Hloop & [= <- <-]).
  change (doc_features (make_geojson (features st))) with (features st) in *.
  pose proof (convert_loop_spec _ _ _ _ Hloop) as (new & Hf & _ & Hcount).
  simpl in Hf, Hcount. subst new.
  rewrite (convert_loop_printed _ _ _ _ Hloop), Hcount.
  repeat split.
  - rewrite <- (Forall2_length _ _ _ Hall). apply skipped_retained_length.
  - apply length_filter.
  - unfold skipped, skipped_from. intros Hi.
    apply list_elem_of_fmap in Hi as ([i' r] & -> & Hi).
    apply list_elem_of_filter in Hi as [Hxy Hi].
    apply elem_of_lookup_imap in Hi as (k & r' & [= ? ?] & Hk).
    simpl in *. subst. eauto.
  - intros (r & Hi & Hxy). unfold skipped, skipped_from.
    apply list_elem_of_fmap. exists (i, r). split; [reflexivity|].
    apply list_elem_of_filter. split; [exact Hxy|].
    apply elem_of_lookup_imap. exists i, r. auto.
Qed.

(** X12. The returned document is a collection with the fixed type and name,
    and each feature in it is a [Feature] with a [Point] geometry of exactly
    two coordinates and the four properties, the numeric ones as integers
    and the date as the string the clock gave while its record was
    converted. *)
Theorem document_shape fs geojson out :
  convert_to_app_format fs = Ok (geojson, out) ->
  member (u "type") geojson = Some (JStr (u "FeatureCollection")) /\
  member (u "name") geojson = Some (JStr (u "Skyddsrum Sverige")) /\
  member (u "features") geojson = Some (JList (doc_features geojson)) /\
  forall j f, doc_features geojson !! j = Some f ->
    member (u "type") f = Some (JStr (u "Feature")) /\
    (exists geom lon lat,
       member (u "geometry") f = Some geom /\
       member (u "type") geom = Some (JStr (u "Point")) /\
       member (u "coordinates") geom = Some (JList [lon; lat])) /\
    (exists i n a,
       romnr f = Some (JInt (Z.of_nat i)) /\
       plasser f = Some (JInt n) /\
       adresse f = Some a /\
       property (u "datauttaksdato") f = Some (JStr (strftime_now i))).
Proof.
  intros Hc. split; [|split; [|split]].
  1-3: unfold convert_to_app_format in Hc;
       apply bind_ok in Hc as (st & _ & [= <- _]); reflexivity.
  intros j f Hj.
  destruct (feature_of_retained _ _ _ _ _ Hc Hj)
    as (i & r & _ & lon & lat & n & _ & _ & _ & ->).
  split; [reflexivity|]. split.
  - eexists _, lon, lat. repeat split; reflexivity.
  - eexists i, n, _. repeat split; reflexivity.
Qed.

Lemma convert_step_same_read idx r r' st :
  same_read r r' -> convert_step idx r st = convert_step idx r' st.
Proof.
  intros (d & d' & a & a' & -> & -> & Hg & Ha & Ha' & Hadr & Hcap).
  unfold convert_step, py_get. cbn [bind].
  rewrite Hg, Ha, Ha', Hadr, Hcap. reflexivity.
Qed.

(** X11. Of a record only the geometry, the address and the capacity are read:
    two inputs whose records agree on these convert to the same document
    with the same printed lines, whatever they hold as [Skyddsrumsnr],
    [Kommunnamn] or other members. *)
Theorem only_geometry_address_capacity_are_read fs fs' :
  Forall2 same_read fs fs' ->
  convert_to_app_format fs = convert_to_app_format fs'.
Proof.
  intros Hsame. unfold convert_to_app_format.
  assert (Hloop : forall idx st,
            convert_loop idx fs st = convert_loop idx fs' st).
  { induction Hsame as [|r r' fs fs' Hr _ IH]; intros idx st; [reflexivity|].
    simpl. rewrite (convert_step_same_read idx r r' st Hr).
    destruct (convert_step idx r' st); simpl; [apply IH | reflexivity]. }
  rewrite Hloop. reflexivity.
Qed.

Lemma malformed_step r e :
  malformed r e -> forall idx st, convert_step idx r st = Raise e.
Proof.
  intros Hbad idx st.
  destruct Hbad as [r Hnd|r g Hg Hscalar|r a Hxy Ha Hnd|r v e Hxy Hv Hrej].
  - destruct r; try reflexivity. destruct (Hnd d eq_refl).
  - destruct r; try discriminate Hg. simpl in Hg.
    unfold convert_step, py_get. cbn [bind]. rewrite Hg.
    destruct g; try discriminate Hscalar; reflexivity.
  - destruct r; try discriminate Ha. simpl in Ha.
    unfold has_xy, geometry_member, member in Hxy.
    unfold convert_step, py_get. cbn [bind]. rewrite Ha.
    destruct (dict_get (u "geometry") d) as [[| | | | | |g]|];
      try discriminate Hxy.
    unfold py_in, py_getitem, dict_mem.
    destruct (dict_get (u "x") g); [|discriminate Hxy].
    destruct (dict_get (u "y") g); [|discriminate Hxy].
    cbn [bind]. destruct a; try reflexivity. destruct (Hnd d0 eq_refl).
  - destruct r; try discriminate Hxy.
    unfold has_xy, geometry_member, member in Hxy.
    unfold attribute, member in Hv.
    unfold convert_step, py_get. cbn [bind].
    destruct (dict_get (u "attributes") d) as [[| | | | | |a]|];
      try discriminate Hv.
    destruct (dict_get (u "geometry") d) as [[| | | | | |g]|];
      try discriminate Hxy.
    unfold py_in, py_getitem, dict_mem.
    destruct (dict_get (u "x") g); [|discriminate Hxy].
    destruct (dict_get (u "y") g); [|discriminate Hxy].
    cbn [bind]. rewrite Hv.
    assert (Hint : (if py_truthy (if is_none v then JInt 0 else v)
                    then py_int (if is_none v then JInt 0 else v)
                    else Ok 0) = Raise e).
    { destruct v as [| | |[| | |]|[|]|[|]|[|]]; simpl in Hrej |- *;
        try contradiction; try (subst e; reflexivity); exact Hrej. }
    rewrite Hint.
    destruct (py_truthy match dict_get (u "Gatuadress") a with
                        | Some v0 => v0 | None => JStr placeholder end);
      reflexivity.
Qed.

(** X10. A malformed record makes the whole conversion raise, with no
    document, once the records before it convert: [AttributeError] when the
    record is not a JSON object, [TypeError] when its geometry is null, a
    boolean or a number, [AttributeError] when it has both coordinates but
    its attributes are not a JSON object, and the exception of [int] when
    it has both coordinates and [int] rejects its capacity. *)
Theorem malformed_record_raises fs k r e geojson out :
  fs !! k = Some r ->
  convert_to_app_format (take k fs) = Ok (geojson, out) ->
  malformed r e ->
  convert_to_app_format fs = Raise e.
Proof.
  intros Hk Hprefix Hbad. unfold convert_to_app_format in *.
  apply bind_ok in Hprefix as (st1 & Hloop & _).
  rewrite <- (take_drop_middle fs k r Hk), convert_loop_split, Hloop.
  cbn [bind convert_loop].
  rewrite (malformed_step r e Hbad). reflexivity.
Qed.

Lemma convert_step_without_coordinates idx r st :
  without_coordinates r ->
  convert_step idx r st =
  Ok (ConvState (features st) (swedish_char_count st)
        (printed st ++ [Skipping idx])).
Proof.
  intros (d & -> & Hxy & Hg).
  unfold has_xy, geometry_member, member in Hxy.
  unfold convert_step, py_get. cbn [bind].
  destruct Hg as [Hg|(g & Hg)]; rewrite Hg in Hxy |- *; [reflexivity|].
  unfold py_in, dict_mem. cbn [bind].
  destruct (dict_get (u "x") g); [|reflexivity].
  destruct (dict_get (u "y") g); [discriminate Hxy | reflexivity].
Qed.

(** X9. A record whose geometry is absent or lacks [x] or [y] is skipped
    without its attributes being looked at: a list of such records converts,
    whatever their attributes are, to the empty collection, with one skip
    line per record. *)
Theorem records_without_coordinates_are_skipped fs :
  Forall without_coordinates fs ->
  convert_to_app_format fs =
  Ok (make_geojson [],
      Converting :: map Skipping (seq 0 (length fs))
        ++ [Converted 0; FoundSwedish 0]).
Proof.
  intros Hall. unfold convert_to_app_format.
  assert (Hloop : forall idx st,
            convert_loop idx fs st =
            Ok (ConvState (features st) (swedish_char_count st)
                  (printed st ++ map Skipping (seq idx (length fs))))).
  { induction Hall as [|r fs Hr _ IH]; intros idx st.
    - simpl. rewrite app_nil_r. destruct st; reflexivity.
    - cbn [convert_loop]. rewrite (convert_step_without_coordinates _ _ _ Hr).
      cbn [bind]. rewrite IH. cbn [features swedish_char_count printed].
      rewrite <- app_assoc. reflexivity. }
  rewrite Hloop. reflexivity.
Qed.

(** X13. A retained record that has no address attribute gets the placeholder,
    and the placeholder is counted among the addresses with Swedish
    characters, as it holds U+00E4. *)
Theorem placeholder_is_counted fs geojson out j i r :
  convert_to_app_format fs = Ok (geojson, out) ->
  retained fs !! j = Some (i, r) ->
  attribute (u "Gatuadress") r = None ->
  exists f,
    doc_features geojson !! j = Some f /\
    adresse f = Some (JStr placeholder) /\
    counted f = true.
Proof.
  intros Hc Hj Hnone.
  destruct (retained_has_feature _ _ _ _ _ _ Hc Hj) as (f & Hf & He).
  pose proof (adresse_emitted _ _ _ He) as Hadr. rewrite Hnone in Hadr.
  change (address_out None) with (JStr placeholder) in Hadr.
  exists f. repeat split; auto.
  unfold counted. rewrite Hadr. reflexivity.
Qed.

(** X14. No address string in the output starts or ends with whitespace. *)
Theorem output_addresses_are_trimmed fs geojson out j f s :
  convert_to_app_format fs = Ok (geojson, out) ->
  doc_features geojson !! j = Some f ->
  adresse f = Some (JStr s) ->
  (forall c, head s = Some c -> isspace c = false) /\
  (forall c, last s = Some c -> isspace c = false).
Proof.
  intros Hc Hj Hs.
  destruct (feature_of_retained _ _ _ _ _ Hc Hj) as (i & r & _ & He).
  rewrite (adresse_emitted _ _ _ He) in Hs. injection Hs as Hs.
  unfold address_out in Hs. cbv zeta in Hs.
  destruct (py_truthy _) eqn:Ht.
  - injection Hs as <-.
    destruct (strip_is_trim
                (py_str match attribute (u "Gatuadress") r with
                        | Some v => v | None => JStr placeholder end))
      as (_ & _ & _ & _ & _ & Hh & Hl). auto.
  - rewrite Hs in Ht. destruct s; [|discriminate Ht].
    split; intros c Hc'; discriminate Hc'.
Qed.

Lemma retained_from_all fs : forall idx,
  Forall (fun r => has_xy r = true) fs ->
  retained_from idx fs = imap (fun i r => ((idx + i)%nat, r)) fs.
Proof.
  induction fs as [|r rest IH]; intros idx Hall; [reflexivity|].
  apply Forall_cons in Hall as [Hr Hrest].
  rewrite retained_from_cons, Hr, (IH _ Hrest), imap_cons, Nat.add_0_r.
  f_equal. apply imap_ext. intros; simpl; f_equal; lia.
Qed.

(** X8. When every record has both coordinates, nothing is skipped: the output
    has one feature per input record, in order, and the feature at output
    position [j] comes from input record [j] and carries [romnr] [j]. *)
Theorem nothing_skipped_when_all_have_coordinates fs geojson out :
  convert_to_app_format fs = Ok (geojson, out) ->
  Forall (fun r => has_xy r = true) fs ->
  length (doc_features geojson) = length fs /\
  out = [Converting; Converted (length fs);
         FoundSwedish (length (filter (fun f => counted f = true)
                                      (doc_features geojson)))] /\
  forall j f, doc_features geojson !! j = Some f ->
    romnr f = Some (JInt (Z.of_nat j)) /\
    exists r, fs !! j = Some r /\
              coordinates f =
                match geometry_member (u "x") r, geometry_member (u "y") r with
                | Some lon, Some lat => Some (JList [lon; lat])
                | _, _ => None
                end.
Proof.
  intros Hc Hall.
  pose proof (convert_to_app_format_spec _ _ _ Hc) as (Hemits & _).
  assert (Hlen : length (doc_features geojson) = length fs).
  { rewrite <- (Forall2_length _ _ _ Hemits). unfold retained.
    rewrite (retained_from_all _ _ Hall). apply length_imap. }
  split; [exact Hlen|]. split.
  - unfold convert_to_app_format in Hc.
    apply bind_ok in Hc as (st & Hloop & [= <- <-]).
    change (doc_features (make_geojson (features st))) with (features st) in *.
    pose proof (convert_loop_spec _ _ _ _ Hloop) as (new & Hf & _ & Hcount).
    simpl in Hf, Hcount. subst new.
    rewrite (convert_loop_printed _ _ _ _ Hloop), Hcount, Hlen.
    assert (Hnone : skipped_from 0 fs = []).
    { pose proof (skipped_retained_length fs 0) as Hsum.
      rewrite (retained_from_all _ _ Hall), length_imap in Hsum.
      destruct (skipped_from 0 fs); [reflexivity | simpl in Hsum; lia]. }
    rewrite Hnone. reflexivity.
  - intros j f Hj.
    destruct (feature_of_retained _ _ _ _ _ Hc Hj) as (i & r & Hr & He).
    unfold retained in Hr. rewrite (retained_from_all _ _ Hall) in Hr.
    apply list_lookup_imap_Some in Hr as (r' & Hr' & [= -> ->]).
    split; [exact (romnr_emitted _ _ _ He)|].
    exists r'. split; [exact Hr'|].
    destruct He as (lon & lat & n & Hx & Hy & _ & ->). simpl in Hx, Hy.
    rewrite Hx, Hy. reflexivity.
Qed.
End TransformerRuns.

(* ===================================================================== *)
(** * Whole runs of the script                                            *)
(* ===================================================================== *)

Section ScriptRuns.
Context `{Python} `{Host}.

(** X16. When the fetch ends with at least one record, every fetched
    record is well formed, and writing the converted document and reading it
    back raise nothing, the script runs to its end: status 0. *)
Theorem well_formed_run_exits_0 fuel fetched out :
  fetch_all_shelters fuel = Some (fetched, out) ->
  fetched <> [] ->
  Forall well_formed fetched ->
  (forall geojson log,
     convert_to_app_format fetched = Ok (geojson, log) ->
     exists text, store geojson = Ok text) ->
  main fuel = Some 0.
Proof.
  intros Hfetch Hne Hwf Hstore. unfold main. rewrite Hfetch.
  unfold run_after_fetch. destruct fetched as [|r rest]; [congruence|].
  cbn [py_truthy negb].
  destruct (convert_to_app_format_total _ Hwf) as (geojson & log & Hconv).
  destruct (Hstore geojson log Hconv) as (text & Hwritten).
  rewrite Hconv, Hwritten. reflexivity.
Qed.

(** X17. When the first query brings nothing - it raises, its body is not a
    JSON object, carries an [error] member, or has no [features] member or
    one that counts as false, such as an empty list or null - the process
    ends with status 1 after that one query, whatever the conversion and the
    file system would have done. *)
Theorem nothing_fetched_exits_1 fuel :
  server 0 = Failed \/
  (exists data, server 0 = Body data /\ forall d, data <> JDict d) \/
  (exists d e, server 0 = Body (JDict d) /\
               dict_get (u "error") d = Some e) \/
  (exists d, server 0 = Body (JDict d) /\
             dict_get (u "error") d = None /\
             match dict_get (u "features") d with
             | None => True
             | Some v => py_truthy v = false
             end) ->
  main (S fuel) = Some 1 /\
  exists out, fetch_all_shelters (S fuel) = Some ([], out) /\
              requests out = [0%nat].
Proof.
  intros Hsrv. unfold main.
  assert (Hfetch : exists out, fetch_all_shelters (S fuel) = Some ([], out) /\
                               requests out = [0%nat]).
  { unfold fetch_all_shelters. cbn [fetch_loop].
    destruct Hsrv as [Hf|[Hnd|[(d & e & Hb & He)|(d & Hb & He & Hnone)]]].
    - rewrite (fetch_step_failed (FetchState [] 0 [Downloading]) (or_introl Hf)).
      eexists. split; reflexivity.
    - rewrite (fetch_step_failed (FetchState [] 0 [Downloading]) (or_intror Hnd)).
      eexists. split; reflexivity.
    - rewrite (fetch_step_api_error (FetchState [] 0 [Downloading]) d e Hb He).
      eexists. split; reflexivity.
    - rewrite (fetch_step_no_features (FetchState [] 0 [Downloading]) d
                 Hb He Hnone).
      eexists. split; reflexivity. }
  destruct Hfetch as (out & Hrun & Hreq). rewrite Hrun.
  split; [reflexivity | eauto].
Qed.
End ScriptRuns.

(* ===================================================================== *)
(** * The run theorems at concrete services and records                   *)
(* ===================================================================== *)

Lemma full_example_served second :
  @serves_full_pages (answering second) 0 [full_example].
Proof.
  intros i page Hi. destruct i as [|i]; [|discriminate Hi].
  injection Hi as <-. eexists. split; [reflexivity|].
  repeat split. unfold full_example. rewrite length_replicate. lia.
Defined.

Lemma fetch_joins_pages_example :
  @serves_full_pages (answering (Body short_body)) 0 [full_example] /\
  @server (answering (Body short_body)) (1 * page_size)%nat
    = Body short_body /\
  short_page short_body [JNull] /\
  exists out,
    @fetch_all_shelters (answering (Body short_body)) (1 + 1) =
      Some (concat [full_example] ++ [JNull], out) /\
    requests out = map (fun i => (i * page_size)%nat) (seq 0 2).
Proof.
  assert (Hshort : short_page short_body [JNull]).
  { repeat split. apply Nat.ltb_lt. reflexivity. }
  split; [apply full_example_served|]. split; [reflexivity|].
  split; [exact Hshort|].
  exact (@fetch_joins_pages (answering (Body short_body)) [full_example]
           [JNull] short_body 0 (full_example_served _) eq_refl Hshort).
Defined.

Lemma fetch_failure_keeps_pages_example :
  @serves_full_pages (answering Failed) 0 [full_example] /\
  (@server (answering Failed) (1 * page_size)%nat = Failed \/
   (exists data, @server (answering Failed) (1 * page_size)%nat = Body data /\
                 forall d, data <> JDict d)) /\
  exists pre,
    @fetch_all_shelters (answering Failed) (1 + 1) =
      Some (concat [full_example],
            pre ++ [Fetching (1 * page_size); FetchError;
                    Downloaded (length (concat [full_example]))]) /\
    requests pre = map (fun i => (i * page_size)%nat) (seq 0 1).
Proof.
  split; [apply full_example_served|]. split; [left; reflexivity|].
  exact (@fetch_failure_keeps_pages (answering Failed) [full_example] 0
           (full_example_served _) (or_introl eq_refl)).
Defined.

Lemma fetch_api_error_keeps_pages_example :
  @serves_full_pages (answering (Body (JDict error_body))) 0 [full_example] /\
  @server (answering (Body (JDict error_body))) (1 * page_size)%nat
    = Body (JDict error_body) /\
  dict_get (u "error") error_body = Some error_member /\
  exists pre,
    @fetch_all_shelters (answering (Body (JDict error_body))) (1 + 1) =
      Some (concat [full_example],
            pre ++ [Fetching (1 * page_size); ApiError error_member;
                    Downloaded (length (concat [full_example]))]) /\
    requests pre = map (fun i => (i * page_size)%nat) (seq 0 1).
Proof.
  split; [apply full_example_served|].
  split; [reflexivity|]. split; [reflexivity|].
  exact (@fetch_api_error_keeps_pages (answering (Body (JDict error_body)))
           [full_example] error_body error_member 0
           (full_example_served _) eq_refl eq_refl).
Defined.

Lemma fetch_goes_on_only_after_full_page_example :
  @fetch_step (answering Failed) fresh = (after_full_example, true) /\
  exists d feats items,
    @server (answering Failed) (offset fresh) = Body (JDict d) /\
    dict_get (u "error") d = None /\
    dict_get (u "features") d = Some feats /\
    py_iter feats = Ok items /\
    (page_size <= length items)%nat /\
    after_full_example =
      FetchState (all_features fresh ++ items) (offset fresh + page_size)
        (fprinted fresh ++ [Fetching (offset fresh); Got (length items)]).
Proof.
  assert (Hstep : @fetch_step (answering Failed) fresh
                  = (after_full_example, true))
    by (vm_compute; reflexivity).
  split; [exact Hstep|].
  exact (@fetch_goes_on_only_after_full_page (answering Failed) fresh
           after_full_example Hstep).
Defined.

Lemma fetch_offsets_and_count_example :
  exists fetched out,
    @fetch_all_shelters (answering Failed) 2 = Some (fetched, out) /\
    exists n,
      requests out = map (fun i => (i * page_size)%nat) (seq 0 (S n)) /\
      (n * page_size <= length fetched)%nat.
Proof.
  eexists _, _. split; [vm_compute; reflexivity|].
  eapply (@fetch_offsets_and_count (answering Failed) 2).
  vm_compute; reflexivity.
Defined.

Lemma conversion_accounts_for_every_record_example :
  exists geojson out,
    @convert_to_app_format plain example_records = Ok (geojson, out) /\
    out = Converting :: map Skipping (skipped example_records)
            ++ [Converted (length (doc_features geojson));
                FoundSwedish
                  (length (filter (fun f => counted f = true)
                                  (doc_features geojson)))] /\
    (length (doc_features geojson) + length (skipped example_records))%nat
      = length example_records /\
    (length (filter (fun f => counted f = true) (doc_features geojson))
     <= length (doc_features geojson))%nat /\
    forall i, i ∈ skipped example_records <->
              exists r, example_records !! i = Some r /\ has_xy r = false.
Proof.
  eexists _, _. split; [reflexivity|].
  eapply (@conversion_accounts_for_every_record plain example_records).
  reflexivity.
Defined.

Lemma document_shape_example :
  exists geojson out,
    @convert_to_app_format plain example_records = Ok (geojson, out) /\
    member (u "type") geojson = Some (JStr (u "FeatureCollection")) /\
    member (u "name") geojson = Some (JStr (u "Skyddsrum Sverige")) /\
    member (u "features") geojson = Some (JList (doc_features geojson)) /\
    forall j f, doc_features geojson !! j = Some f ->
      member (u "type") f = Some (JStr (u "Feature")) /\
      (exists geom lon lat,
         member (u "geometry") f = Some geom /\
         member (u "type") geom = Some (JStr (u "Point")) /\
         member (u "coordinates") geom = Some (JList [lon; lat])) /\
      (exists i n a,
         romnr f = Some (JInt (Z.of_nat i)) /\
         plasser f = Some (JInt n) /\
         adresse f = Some a /\
         property (u "datauttaksdato") f
           = Some (JStr (@strftime_now plain i))).
Proof.
  eexists _, _. split; [reflexivity|].
  eapply (@document_shape plain example_records). reflexivity.
Defined.

Lemma only_geometry_address_capacity_are_read_example :
  Forall2 same_read plain_records tagged_records /\
  @convert_to_app_format plain plain_records =
  @convert_to_app_format plain tagged_records.
Proof.
  assert (Hsame : Forall2 same_read plain_records tagged_records).
  { constructor; [|constructor].
    eexists _, _, _, _. repeat split; reflexivity. }
  split; [exact Hsame|].
  exact (@only_geometry_address_capacity_are_read plain
           plain_records tagged_records Hsame).
Defined.

Lemma well_formed_example_records : Forall (@well_formed plain) example_records.
Proof.
  repeat constructor; eexists; (split; [reflexivity|]);
    (split; [intros v [= <-]; eauto|]);
    (split; [intros v [= <-]; eauto|]);
    eexists; reflexivity.
Defined.

Lemma fetch_never_ends_on_full_pages_example :
  (forall i, exists data page,
     @server endless (i * page_size)%nat = Body data /\ full_page data page) /\
  forall fuel, @fetch_all_shelters endless fuel = None.
Proof.
  assert (Hall : forall i, exists data page,
            @server endless (i * page_size)%nat = Body data /\
            full_page data page).
  { intros i. eexists _, full_example. split; [reflexivity|].
    repeat split. unfold full_example. rewrite length_replicate. lia. }
  split; [exact Hall|].
  exact (@fetch_never_ends_on_full_pages endless Hall).
Defined.

Lemma nothing_skipped_when_all_have_coordinates_example :
  exists geojson out,
    @convert_to_app_format plain plain_records = Ok (geojson, out) /\
    Forall (fun r => has_xy r = true) plain_records /\
    length (doc_features geojson) = length plain_records /\
    out = [Converting; Converted (length plain_records);
           FoundSwedish (length (filter (fun f => counted f = true)
                                        (doc_features geojson)))] /\
    forall j f, doc_features geojson !! j = Some f ->
      romnr f = Some (JInt (Z.of_nat j)) /\
      exists r, plain_records !! j = Some r /\
                coordinates f =
                  match geometry_member (u "x") r,
                        geometry_member (u "y") r with
                  | Some lon, Some lat => Some (JList [lon; lat])
                  | _, _ => None
                  end.
Proof.
  assert (Hall : Forall (fun r => has_xy r = true) plain_records)
    by (repeat constructor).
  eexists _, _. split; [reflexivity|]. split; [exact Hall|].
  eapply (@nothing_skipped_when_all_have_coordinates plain plain_records);
    [reflexivity | exact Hall].
Defined.

Lemma malformed_record_raises_example :
  exists geojson out,
    @convert_to_app_format plain [skipped_record] = Ok (geojson, out) /\
    (@malformed plain JNull AttributeError /\
     @convert_to_app_format plain [skipped_record; JNull]
       = Raise AttributeError) /\
    (@malformed plain record_with_number_geometry TypeError /\
     @convert_to_app_format plain [skipped_record; record_with_number_geometry]
       = Raise TypeError) /\
    (@malformed plain record_with_number_attributes AttributeError /\
     @convert_to_app_format plain
        [skipped_record; record_with_number_attributes]
       = Raise AttributeError) /\
    (@malformed plain record_with_nan_capacity ValueError /\
     @convert_to_app_format plain [skipped_record; record_with_nan_capacity]
       = Raise ValueError).
Proof.
  assert (H1 : @malformed plain JNull AttributeError)
    by (apply not_an_object; discriminate).
  assert (H2 : @malformed plain record_with_number_geometry TypeError)
    by (eapply scalar_geometry; reflexivity).
  assert (H3 : @malformed plain record_with_number_attributes AttributeError)
    by (eapply attributes_not_an_object;
        [reflexivity | reflexivity | discriminate]).
  assert (H4 : @malformed plain record_with_nan_capacity ValueError)
    by (eapply capacity_rejected; reflexivity).
  eexists _, _. split; [reflexivity|].
  split; [split; [exact H1|]|split; [split; [exact H2|]|
          split; [split; [exact H3|]|split; [exact H4|]]]].
  - exact (@malformed_record_raises plain [skipped_record; JNull]
             1 _ _ _ _ eq_refl eq_refl H1).
  - exact (@malformed_record_raises plain
             [skipped_record; record_with_number_geometry]
             1 _ _ _ _ eq_refl eq_refl H2).
  - exact (@malformed_record_raises plain
             [skipped_record; record_with_number_attributes]
             1 _ _ _ _ eq_refl eq_refl H3).
  - exact (@malformed_record_raises plain
             [skipped_record; record_with_nan_capacity]
             1 _ _ _ _ eq_refl eq_refl H4).
Defined.

Lemma records_without_coordinates_are_skipped_example :
  Forall without_coordinates records_without_coordinates /\
  @convert_to_app_format plain records_without_coordinates =
  Ok (make_geojson [],
      Converting :: map Skipping (seq 0 (length records_without_coordinates))
        ++ [Converted 0; FoundSwedish 0]).
Proof.
  assert (Hall : Forall without_coordinates records_without_coordinates).
  { repeat constructor; eexists; (split; [reflexivity|]);
      (split; [reflexivity|]); [left; reflexivity | right; eexists; reflexivity]. }
  split; [exact Hall|].
  exact (@records_without_coordinates_are_skipped plain
           records_without_coordinates Hall).
Defined.

Lemma placeholder_is_counted_example :
  exists geojson out,
    @convert_to_app_format plain [record_without_address]
      = Ok (geojson, out) /\
    retained [record_without_address] !! 0%nat
      = Some (0%nat, record_without_address) /\
    attribute (u "Gatuadress") record_without_address = None /\
    exists f,
      doc_features geojson !! 0%nat = Some f /\
      adresse f = Some (JStr placeholder) /\
      counted f = true.
Proof.
  eexists _, _. split; [reflexivity|].
  split; [reflexivity|]. split; [reflexivity|].
  eapply (@placeholder_is_counted plain [record_without_address] _ _
            0%nat 0%nat record_without_address); reflexivity.
Defined.

Lemma output_addresses_are_trimmed_example :
  exists geojson out f,
    @convert_to_app_format plain example_records = Ok (geojson, out) /\
    doc_features geojson !! 1%nat = Some f /\
    adresse f = Some (JStr (u "Storgatan 5")) /\
    (forall c, head (u "Storgatan 5") = Some c -> isspace c = false) /\
    (forall c, last (u "Storgatan 5") = Some c -> isspace c = false).
Proof.
  eexists _, _, _. split; [reflexivity|]. split; [reflexivity|].
  split; [reflexivity|].
  eapply (@output_addresses_are_trimmed plain example_records _ _ 1%nat);
    reflexivity.
Defined.

Lemma well_formed_run_exits_0_example :
  exists out,
    @fetch_all_shelters (serving example_records) 1
      = Some (example_records, out) /\
    example_records <> [] /\
    Forall (@well_formed plain) example_records /\
    (forall geojson log,
       @convert_to_app_format plain example_records = Ok (geojson, log) ->
       exists text, @store (serving example_records) geojson = Ok text) /\
    @main plain (serving example_records) 1 = Some 0.
Proof.
  eexists. split; [reflexivity|].
  assert (Hne : example_records <> []) by discriminate.
  assert (Hstore : forall geojson log,
            @convert_to_app_format plain example_records = Ok (geojson, log) ->
            exists text, @store (serving example_records) geojson = Ok text)
    by (intros; eexists; reflexivity).
  split; [exact Hne|]. split; [exact well_formed_example_records|].
  split; [exact Hstore|].
  exact (@well_formed_run_exits_0 plain (serving example_records) 1 _ _
           eq_refl Hne well_formed_example_records Hstore).
Defined.

Lemma nothing_fetched_exits_1_example :
  (@server unreachable 0%nat = Failed \/
   (exists data, @server unreachable 0%nat = Body data /\
                 forall d, data <> JDict d) \/
   (exists d e, @server unreachable 0%nat = Body (JDict d) /\
                dict_get (u "error") d = Some e) \/
   (exists d, @server unreachable 0%nat = Body (JDict d) /\
              dict_get (u "error") d = None /\
              match dict_get (u "features") d with
              | None => True
              | Some v => py_truthy v = false
              end)) /\
  @main plain unreachable 1 = Some 1 /\
  exists out, @fetch_all_shelters unreachable 1 = Some ([], out) /\
              requests out = [0%nat].
Proof.
  split; [left; reflexivity|].
  exact (@nothing_fetched_exits_1 plain unreachable 0 (or_introl eq_refl)).
Defined.
